(** * Materials server: a shallow embedding of [src/server.js]

    The server keeps one SQLite table, [materials], and a directory of
    uploaded files.  Four Express routes create, list, delete and update
    materials.  Each route is embedded as a function from the request, the
    environment's answers (clock readings, failing statements) and the
    world (table + files) to a response and a new world. *)

From Stdlib Require Import Ascii String.
From stdpp Require Import gmap strings list fin_maps pretty.

Set Warnings "-register-all".

Local Open Scope Z_scope.
Local Open Scope string_scope.

(** ** JavaScript values that reach a response *)

Inductive json : Type :=
| JNull
| JNum (n : Z)
| JStr (s : string)
| JArr (items : list json)
| JObj (fields : list (string * json)).

(** [obj.key], with [undefined] as [None]. *)
Fixpoint assoc (key : string) (fields : list (string * json)) : option json :=
  match fields with
  | [] => None
  | (k, v) :: rest => if bool_decide (k = key) then Some v else assoc key rest
  end.

Definition field (key : string) (v : json) : option json :=
  match v with
  | JObj fields => assoc key fields
  | _ => None
  end.

Record Response : Type := mkResponse { status : Z; body : json }.

(** [!s] on a form field: [undefined] and the empty string are falsy. *)
Definition required (v : option string) : option string :=
  match v with
  | Some s => if bool_decide (s = "") then None else Some s
  | None => None
  end.

(** ** Strings: [replace(/\s/g, '_')] and [path.basename] *)

(** The characters [\s] matches among the Latin-1 code units of a multipart
    file name: TAB, LF, VT, FF, CR, space and NBSP. *)
Definition is_space (c : ascii) : bool :=
  let n := N_of_ascii c in
  ((9 <=? n) && (n <=? 13) || (n =? 32) || (n =? 160))%N.

Fixpoint replace_spaces (s : string) : string :=
  match s with
  | EmptyString => EmptyString
  | String c rest => String (if is_space c then "_"%char else c) (replace_spaces rest)
  end.

Definition is_slash (c : ascii) : bool := bool_decide (c = "/"%char).

(** POSIX [path.basename]: the last non-empty segment between slashes.
    [cur] is the segment being read, [last] the last non-empty one seen. *)
Fixpoint basename_from (s cur last : string) : string :=
  match s with
  | EmptyString => if bool_decide (cur = "") then last else cur
  | String c rest =>
      if is_slash c
      then basename_from rest "" (if bool_decide (cur = "") then last else cur)
      else basename_from rest (cur +:+ String c "") last
  end.

Definition basename (p : string) : string := basename_from p "" "".

Fixpoint has_slash (s : string) : bool :=
  match s with
  | EmptyString => false
  | String c rest => is_slash c || has_slash rest
  end.

(** ** SQL values and three-valued conditions *)

Inductive sqlval : Type :=
| SNull
| SText (s : string)
| SInt (z : Z).

(** A condition is [Some b] or unknown ([None], the SQL NULL). *)
Definition sql_and (a b : option bool) : option bool :=
  match a, b with
  | Some false, _ | _, Some false => Some false
  | Some true, Some true => Some true
  | _, _ => None
  end.

Definition sql_or (a b : option bool) : option bool :=
  match a, b with
  | Some true, _ | _, Some true => Some true
  | Some false, Some false => Some false
  | _, _ => None
  end.

Definition sql_is_null (a : sqlval) : option bool :=
  match a with
  | SNull => Some true
  | _ => Some false
  end.

(** [a = b] between a column and a bound parameter of the same storage
    class; an integer never equals a text. *)
Definition sql_eq (a b : sqlval) : option bool :=
  match a, b with
  | SNull, _ | _, SNull => None
  | SText s, SText t => Some (bool_decide (s = t))
  | SInt x, SInt y => Some (bool_decide (x = y))
  | _, _ => Some false
  end.

(** A row is selected when its WHERE condition is true (not unknown). *)
Definition selected (c : option bool) : bool :=
  match c with
  | Some true => true
  | _ => false
  end.

(** A JavaScript string or [null] bound to a [?]. *)
Definition bind (v : option string) : sqlval :=
  match v with
  | Some s => SText s
  | None => SNull
  end.

(** ** The [materials] table *)

Record Row : Type := mkRow {
  id : Z;
  name : string;
  desc : string;
  category : string;
  pdf_path : string;
  image_path : option string
}.

(** [seq] is the table's entry in [sqlite_sequence]: the largest rowid
    AUTOINCREMENT has handed out. *)
Record DB : Type := mkDB { rows : list Row; seq : Z }.

Definition largest_rowid (d : DB) : Z :=
  foldr (fun r m => Z.max (id r) m) (seq d) (rows d).

Fixpoint increasing (lo : Z) (ids : list Z) : bool :=
  match ids with
  | [] => true
  | i :: rest => bool_decide (lo < i) && increasing i rest
  end.

(** The table as SQLite keeps it: rows in rowid order, rowids positive,
    distinct and not above the sequence. *)
Definition db_wf (d : DB) : bool :=
  increasing 0 (id <$> rows d)
  && forallb (fun r => bool_decide (id r <= seq d)) (rows d)
  && bool_decide (0 <= seq d).

(** ** What the program does not fix

    [UPLOAD_DIR] is [path.join(__dirname, 'uploads')], an absolute POSIX
    directory.  [numeric_affinity] is SQLite's coercion of a text bound to
    [id = ?]: [Some z] when the text reads as a number equal to the
    integer [z], [None] when it does not (the text then differs from every
    rowid).  [error_page] is the page Express sends, with status 500, when
    a route handler throws: not JSON, and its text depends on how the
    process is run. *)
Class Platform : Type := {
  UPLOAD_DIR : string;
  numeric_affinity : string -> option Z;
  error_page : string
}.

(** ** Requests, environment, world *)

(** One file part of a multipart form.  [part_now] is what [Date.now()]
    returns when the storage engine names this file. *)
Record Part : Type := mkPart {
  part_field : string;
  part_filename : string;
  part_mimetype : string;
  part_content : string;
  part_now : Z
}.

(** A file object as multer leaves it in [req.files]. *)
Record File : Type := mkFile {
  fieldname : string;
  originalname : string;
  mimetype : string;
  path : string
}.

(** A request as the routes receive it, with the texts found in
    [req.body].  [form] holds the file parts of a multipart form, in their
    order; it is [None] for a request that is not multipart: then the
    texts come from [express.json()], multer passes the request on
    untouched and [req.files] stays undefined. *)
Record Request : Type := mkRequest {
  protocol : string;
  host : string;
  params_id : string;
  body_name : option string;
  body_desc : option string;
  body_category : option string;
  form : option (list Part)
}.

(** The file parts multer gets to see. *)
Definition parts (req : Request) : list Part := default [] (form req).

(** The failures the environment may inject into one request: the error of
    [db.get], of [db.run], of [db.all], and the paths on which
    [fs.unlinkSync] throws. *)
Record Env : Type := mkEnv {
  get_err : option string;
  run_err : option string;
  all_err : option string;
  unlink_err : string -> bool
}.

Record World : Type := mkWorld { db : DB; fs : gmap string string }.

(** [response = None]: an exception escaped the callback and nothing was
    sent. *)
Record Result : Type := mkResult { response : option Response; world : World }.

Definition reply (code : Z) (b : json) (w : World) : Result :=
  mkResult (Some (mkResponse code b)) w.

Definition uncaught (w : World) : Result := mkResult None w.

Definition error_body (msg : string) : json := JObj [("error", JStr msg)].

(** ** File system *)

Definition existsSync (p : string) (files : gmap string string) : bool :=
  bool_decide (is_Some (files !! p)).

(** [None] when [fs.unlinkSync] throws. *)
Definition unlinkSync (env : Env) (p : string) (files : gmap string string)
  : option (gmap string string) :=
  if existsSync p files
  then if unlink_err env p then None else Some (delete p files)
  else None.

(** [if (fs.existsSync(p)) fs.unlinkSync(p)] *)
Definition unlink_if_exists (env : Env) (p : string) (files : gmap string string)
  : option (gmap string string) :=
  if existsSync p files then unlinkSync env p files else Some files.

(** [if (p && fs.existsSync(p)) fs.unlinkSync(p)] on a nullable column. *)
Definition unlink_image_if_exists (env : Env) (p : option string)
    (files : gmap string string) : option (gmap string string) :=
  match required p with
  | Some q => unlink_if_exists env q files
  | None => Some files
  end.

Section Server.
Context {platform : Platform}.

(** ** Multer: storage engine, file filter, field limits *)

Definition storage_destination (field_name : string) : string :=
  UPLOAD_DIR +:+ "/" +:+ (if bool_decide (field_name = "image") then "images" else "pdfs").

Definition storage_filename (now : Z) (original : string) : string :=
  pretty now +:+ "-" +:+ replace_spaces original.

Definition fileFilter (field_name mime : string) : option string :=
  if bool_decide (field_name = "pdf") && negb (bool_decide (mime = "application/pdf"))
  then Some "Only PDF files are allowed"
  else if bool_decide (field_name = "image")
          && negb (bool_decide (mime ∈ ["image/jpeg"; "image/png"; "image/jpg"]))
  then Some "Only JPG, JPEG, and PNG images are allowed"
  else None.

(** [.fields([{name:'pdf', maxCount:1}, {name:'image', maxCount:1}])] *)
Definition upload_limits : gmap string nat := {[ "pdf" := 1%nat; "image" := 1%nat ]}.

Definition remove_uploaded (done : list File) (files : gmap string string)
  : gmap string string :=
  foldr (fun f acc => delete (path f) acc) files done.

(** The parts are taken in order.  A part without a file name is skipped;
    a part beyond its field's limit or refused by the filter aborts the
    upload, and multer then removes what it had stored. *)
Fixpoint upload_parts (ps : list Part) (left : gmap string nat) (done : list File)
    (files : gmap string string) : (string + list File) * gmap string string :=
  match ps with
  | [] => (inr done, files)
  | p :: rest =>
      if bool_decide (part_filename p = "") then upload_parts rest left done files
      else match default 0%nat (left !! part_field p) with
      | O => (inl "Unexpected field", remove_uploaded done files)
      | S n =>
          match fileFilter (part_field p) (part_mimetype p) with
          | Some msg => (inl msg, remove_uploaded done files)
          | None =>
              let file_path :=
                storage_destination (part_field p) +:+ "/"
                +:+ storage_filename (part_now p) (part_filename p) in
              upload_parts rest (<[part_field p := n]> left)
                (done ++ [mkFile (part_field p) (part_filename p) (part_mimetype p) file_path])
                (<[file_path := part_content p]> files)
          end
      end
  end.

(** A request that is not multipart has no parts: multer calls back at
    once, without an error and without touching the disk. *)
Definition upload (req : Request) (files : gmap string string)
  : (string + list File) * gmap string string :=
  upload_parts (parts req) upload_limits [] files.

(** Whether the form carries a file in the given field. *)
Definition has_part (field_name : string) (req : Request) : bool :=
  existsb (fun p => bool_decide (part_field p = field_name)
                    && negb (bool_decide (part_filename p = ""))) (parts req).

(** [req.files[f] ? req.files[f][0] : null] *)
Definition first_file (field_name : string) (uploaded : list File) : option File :=
  List.find (fun f => bool_decide (fieldname f = field_name)) uploaded.

(** ** Statements on the table *)

(** [name = ? AND desc = ? AND category = ? AND pdf_path = ?
     AND (image_path = ? OR image_path IS NULL)] *)
Definition duplicate_where (n d c p i : sqlval) (r : Row) : option bool :=
  sql_and
    (sql_and
      (sql_and
        (sql_and (sql_eq (SText (name r)) n) (sql_eq (SText (desc r)) d))
        (sql_eq (SText (category r)) c))
      (sql_eq (SText (pdf_path r)) p))
    (sql_or (sql_eq (bind (image_path r)) i) (sql_is_null (bind (image_path r)))).

(** [id = ?] with a text bound to the INTEGER column. *)
Definition id_where (materialId : string) (r : Row) : option bool :=
  match numeric_affinity materialId with
  | Some z => sql_eq (SInt (id r)) (SInt z)
  | None => sql_eq (SInt (id r)) (SText materialId)
  end.

(** [db.get]: the first selected row, or the statement's error. *)
Definition db_get (env : Env) (cond : Row -> option bool) (d : DB)
  : string + option Row :=
  match get_err env with
  | Some msg => inl msg
  | None => inr (List.find (fun r => selected (cond r)) (rows d))
  end.

Definition checkDuplicateMaterial (env : Env) (n d c p i : option string) (t : DB)
  : string + bool :=
  match db_get env (duplicate_where (bind n) (bind d) (bind c) (bind p) (bind i)) t with
  | inl msg => inl msg
  | inr row => inr (match row with Some _ => true | None => false end)
  end.

(** [INSERT INTO materials (...) VALUES (...)]: the new rowid and table. *)
Definition db_insert (env : Env) (n d c p : string) (i : option string) (t : DB)
  : string + (Z * DB) :=
  match run_err env with
  | Some msg => inl msg
  | None =>
      let lastID := largest_rowid t + 1 in
      inr (lastID, mkDB (rows t ++ [mkRow lastID n d c p i]) lastID)
  end.

(** [DELETE FROM materials WHERE id = ?] *)
Definition db_delete (env : Env) (materialId : string) (t : DB) : string + DB :=
  match run_err env with
  | Some msg => inl msg
  | None =>
      inr (mkDB (List.filter (fun r => negb (selected (id_where materialId r))) (rows t))
                (seq t))
  end.

(** [UPDATE materials SET name = ?, ... WHERE id = ?] *)
Definition db_update (env : Env) (n d c p : string) (i : option string)
    (materialId : string) (t : DB) : string + DB :=
  match run_err env with
  | Some msg => inl msg
  | None =>
      inr (mkDB ((fun r => if selected (id_where materialId r)
                           then mkRow (id r) n d c p i else r) <$> rows t)
                (seq t))
  end.

(** [db.all('SELECT * FROM materials')] *)
Definition db_all (env : Env) (t : DB) : string + list Row :=
  match all_err env with
  | Some msg => inl msg
  | None => inr (rows t)
  end.

(** ** Links and payloads *)

Definition upload_link (req : Request) (partition file_path : string) : string :=
  protocol req +:+ "://" +:+ host req +:+ "/uploads/" +:+ partition +:+ "/"
  +:+ basename file_path.

Definition pdf_link (req : Request) (p : string) : json :=
  JStr (upload_link req "pdfs" p).

(** [image_path ? `...` : null] *)
Definition image_link (req : Request) (i : option string) : json :=
  match required i with
  | Some p => JStr (upload_link req "images" p)
  | None => JNull
  end.

Definition material_body (msg : string) (ident : json) (n d c : string)
    (req : Request) (p : string) (i : option string) : json :=
  JObj [("message", JStr msg);
        ("material",
         JObj [("id", ident); ("name", JStr n); ("desc", JStr d); ("category", JStr c);
               ("pdf_link", pdf_link req p); ("image_link", image_link req i)])].

Definition nullable (v : option string) : json :=
  match v with
  | Some s => JStr s
  | None => JNull
  end.

(** [{...row, pdf_link, image_link}] *)
Definition row_json (req : Request) (r : Row) : json :=
  JObj [("id", JNum (id r)); ("name", JStr (name r)); ("desc", JStr (desc r));
        ("category", JStr (category r)); ("pdf_path", JStr (pdf_path r));
        ("image_path", nullable (image_path r));
        ("pdf_link", pdf_link req (pdf_path r));
        ("image_link", image_link req (image_path r))].

(** ** The routes *)

(** An exception thrown while Express is still running the route handler:
    Express catches it and answers 500 with its error page. *)
Definition express_error (w : World) : Result :=
  reply 500 (JStr error_page) w.

(** [app.post('/api/materials')] *)
Definition post_materials (env : Env) (req : Request) (w : World) : Result :=
  match upload req (fs w) with
  | (inl msg, files) => reply 400 (error_body ("Upload Error: " +:+ msg)) (mkWorld (db w) files)
  | (inr uploaded, files) =>
      let w1 := mkWorld (db w) files in
      match required (body_name req), required (body_desc req),
            required (body_category req) with
      | Some n, Some d, Some c =>
          match form req with
          | None => express_error w1 (* [req.files['pdf']] on undefined *)
          | Some _ =>
          match first_file "pdf" uploaded with
          | None => reply 400 (error_body "PDF file is required.") w1
          | Some pdfFile =>
              let p := path pdfFile in
              let i := path <$> first_file "image" uploaded in
              match checkDuplicateMaterial env (Some n) (Some d) (Some c) (Some p) i (db w1) with
              | inl msg => reply 500 (error_body ("Database Error: " +:+ msg)) w1
              | inr true => reply 409 (error_body "Material already exists!") w1
              | inr false =>
                  match db_insert env n d c p i (db w1) with
                  | inl msg => reply 500 (error_body ("Database Error: " +:+ msg)) w1
                  | inr (lastID, t) =>
                      reply 201
                        (material_body "Material added successfully!" (JNum lastID)
                           n d c req p i)
                        (mkWorld t files)
                  end
              end
          end
          end
      | _, _, _ =>
          reply 400 (error_body "Name, description, and category are required.") w1
      end
  end.

(** [app.get('/api/materials')] *)
Definition get_materials (env : Env) (req : Request) (w : World) : Result :=
  match db_all env (db w) with
  | inl msg => reply 500 (error_body ("Database Fetch Error: " +:+ msg)) w
  | inr all => reply 200 (JArr (row_json req <$> all)) w
  end.

(** [app.delete('/api/materials/:id')] *)
Definition delete_material (env : Env) (req : Request) (w : World) : Result :=
  let materialId := params_id req in
  match db_get env (id_where materialId) (db w) with
  | inl _ | inr None => reply 404 (error_body "Material not found.") w
  | inr (Some row) =>
      match unlink_if_exists env (pdf_path row) (fs w) with
      | None => uncaught w
      | Some files1 =>
          match unlink_image_if_exists env (image_path row) files1 with
          | None => uncaught (mkWorld (db w) files1)
          | Some files2 =>
              let w2 := mkWorld (db w) files2 in
              match db_delete env materialId (db w) with
              | inl msg => reply 500 (error_body ("Database Delete Error: " +:+ msg)) w2
              | inr t => reply 200 (JObj [("message", JStr "Material deleted successfully.")])
                               (mkWorld t files2)
              end
          end
      end
  end.

(** [app.put('/api/materials/:id')] *)
Definition put_material (env : Env) (req : Request) (w : World) : Result :=
  match upload req (fs w) with
  | (inl msg, files) => reply 400 (error_body ("Upload Error: " +:+ msg)) (mkWorld (db w) files)
  | (inr uploaded, files) =>
      let w1 := mkWorld (db w) files in
      let materialId := params_id req in
      match required (body_name req), required (body_desc req),
            required (body_category req) with
      | Some n, Some d, Some c =>
          match db_get env (id_where materialId) (db w) with
          | inl _ | inr None => reply 404 (error_body "Material not found.") w1
          | inr (Some existingMaterial) =>
              match form req with
              | None => uncaught w1 (* [req.files['pdf']] on undefined, in the
                                       callback of [db.get] *)
              | Some _ =>
              let pdfFile := first_file "pdf" uploaded in
              let imageFile := first_file "image" uploaded in
              let after_pdf :=
                match pdfFile with
                | Some f => (unlink_if_exists env (pdf_path existingMaterial) files, path f)
                | None => (Some files, pdf_path existingMaterial)
                end in
              match after_pdf with
              | (None, _) => uncaught w1
              | (Some files1, newPdfPath) =>
                  let after_image :=
                    match imageFile with
                    | Some f =>
                        (unlink_image_if_exists env (image_path existingMaterial) files1,
                         Some (path f))
                    | None => (Some files1, image_path existingMaterial)
                    end in
                  match after_image with
                  | (None, _) => uncaught (mkWorld (db w) files1)
                  | (Some files2, newImagePath) =>
                      let w2 := mkWorld (db w) files2 in
                      match db_update env n d c newPdfPath newImagePath materialId (db w) with
                      | inl msg => reply 500 (error_body ("Database Error: " +:+ msg)) w2
                      | inr t =>
                          reply 200
                            (material_body "Material updated successfully!" (JStr materialId)
                               n d c req newPdfPath newImagePath)
                            (mkWorld t files2)
                      end
                  end
              end
              end
          end
      | _, _, _ =>
          reply 400 (error_body "Name, description, and category are required.") w1
      end
  end.

(** ** Vocabulary of the properties *)

(** The multipart form passed the upload, leaving [uploaded] in
    [req.files] and [files] on disk, and carries the three texts. *)
Definition parsed (req : Request) (w : World) (uploaded : list File)
    (files : gmap string string) (n d c : string) : Prop :=
  upload req (fs w) = (inr uploaded, files)
  /\ required (body_name req) = Some n
  /\ required (body_desc req) = Some d
  /\ required (body_category req) = Some c
  /\ form req <> None.

(** The files once the image of a row, if it has one, is removed. *)
Definition without_image (i : option string) (files : gmap string string)
  : gmap string string :=
  match required i with
  | Some p => delete p files
  | None => files
  end.

(** The route answered with this status and [{error: msg}]. *)
Definition fails_with (res : Result) (code : Z) (msg : string) : Prop :=
  response res = Some (mkResponse code (error_body msg)).

(** [SELECT * FROM materials WHERE id = ?] as both routes issue it. *)
Definition lookup (env : Env) (req : Request) (w : World) : string + option Row :=
  db_get env (id_where (params_id req)) (db w).

(** The same form, with the same files, sent when the clock reads [now]. *)
Definition at_clock (now : Z) (p : Part) : Part :=
  mkPart (part_field p) (part_filename p) (part_mimetype p) (part_content p) now.

Definition resend (now : Z) (req : Request) : Request :=
  mkRequest (protocol req) (host req) (params_id req) (body_name req) (body_desc req)
    (body_category req)
    (match form req with
     | Some ps => Some (at_clock now <$> ps)
     | None => None
     end).

(** A text is missing or empty, or the form has no document. *)
Definition invalid_create (req : Request) : bool :=
  match required (body_name req), required (body_desc req),
        required (body_category req) with
  | Some _, Some _, Some _ => negb (has_part "pdf" req)
  | _, _, _ => true
  end.

(** One of the three texts is missing or empty. *)
Definition incomplete (req : Request) : bool :=
  match required (body_name req), required (body_desc req),
        required (body_category req) with
  | Some _, Some _, Some _ => false
  | _, _, _ => true
  end.

(** The specification's reading of a rejected Create: a validation error,
    no file written and no row inserted. *)
Definition rejected_without_effect (env : Env) (req : Request) (w : World) : Prop :=
  status <$> response (post_materials env req w) = Some 400
  /\ fs (world (post_materials env req w)) = fs w
  /\ db (world (post_materials env req w)) = db w.

(** The two routes that look a material up by id before changing it. *)
Inductive Mutation : Type := Delete | Update.

Definition mutate (k : Mutation) : Env -> Request -> World -> Result :=
  match k with
  | Delete => delete_material
  | Update => put_material
  end.

(** Delete looks the id up at once; Update first parses the form. *)
Definition reaches_lookup (k : Mutation) (req : Request) (w : World) : Prop :=
  match k with
  | Delete => True
  | Update => exists uploaded files n d c, parsed req w uploaded files n d c
  end.

Definition write_error (k : Mutation) (msg : string) : string :=
  match k with
  | Delete => "Database Delete Error: " +:+ msg
  | Update => "Database Error: " +:+ msg
  end.

(** The specification's reading of the error kinds of Update and Delete:
    an unknown id gives 404, a failing lookup or a failing write gives 500. *)
Definition error_kinds_kept_apart (k : Mutation) (env : Env) (req : Request)
    (w : World) : Prop :=
  (lookup env req w = inr None -> status <$> response (mutate k env req w) = Some 404)
  /\ (is_Some (get_err env) -> status <$> response (mutate k env req w) = Some 500)
  /\ (forall row, lookup env req w = inr (Some row) -> is_Some (run_err env) ->
      status <$> response (mutate k env req w) = Some 500).

(** The requests the server answers, and the worlds it passes through
    when it starts with an empty table. *)
Inductive Call : Type := Create | List | Mutate (k : Mutation).

Definition serve (c : Call) : Env -> Request -> World -> Result :=
  match c with
  | Create => post_materials
  | List => get_materials
  | Mutate k => mutate k
  end.

Inductive reachable : World -> Prop :=
| reachable_start (files : gmap string string) : reachable (mkWorld (mkDB [] 0) files)
| reachable_serve (c : Call) (env : Env) (req : Request) (w : World) :
    reachable w -> reachable (world (serve c env req w)).

End Server.

(** ** The duplicate check as the specification words it

    A row matches when name, description, category and document path equal
    the supplied values and the image path matches; a null supplied image
    path matches a stored null or a stored value equal to the supplied
    one, any other supplied image path matches by equality. *)
Definition spec_image_matches (supplied stored : option string) : bool :=
  match supplied with
  | None => bool_decide (stored = None) || bool_decide (stored = supplied)
  | Some _ => bool_decide (stored = supplied)
  end.

Definition spec_findExactMatch (n d c p : string) (i : option string) (t : DB) : bool :=
  existsb (fun r => bool_decide (name r = n) && bool_decide (desc r = d)
                    && bool_decide (category r = c) && bool_decide (pdf_path r = p)
                    && spec_image_matches i (image_path r)) (rows t).

(** The specification's reading of the duplicate check: it answers what
    [spec_findExactMatch] answers. *)
Definition duplicate_check_as_specified (env : Env) (n d c p : string)
    (i : option string) (t : DB) : Prop :=
  checkDuplicateMaterial env (Some n) (Some d) (Some c) (Some p) i t
  = inr (spec_findExactMatch n d c p i t).

(** ** Vocabulary of the further properties *)

(** Whether some character of the text satisfies [P]. *)
Fixpoint any_char (P : ascii -> bool) (s : string) : bool :=
  match s with
  | EmptyString => false
  | String c rest => P c || any_char P rest
  end.

(** The body a route answered with ([null] when nothing was sent). *)
Definition answer (res : Result) : json := default JNull (body <$> response res).

(** The key [k] of the [material] object of a response body. *)
Definition material_field (k : string) (b : json) : option json :=
  field "material" b ≫= field k.

Section Sessions.
Context {platform : Platform}.

(** The file object the storage engine makes of a part. *)
Definition stored_file (p : Part) : File :=
  mkFile (part_field p) (part_filename p) (part_mimetype p)
    (storage_destination (part_field p) +:+ "/"
     +:+ storage_filename (part_now p) (part_filename p)).

(** A part with a file that the upload does not take: its field is neither
    [pdf] nor [image], or the file filter refuses its type. *)
Definition refused (p : Part) : bool :=
  negb (bool_decide (part_filename p = ""))
  && (negb (bool_decide (part_field p ∈ ["pdf"; "image"]))
      || match fileFilter (part_field p) (part_mimetype p) with
         | Some _ => true
         | None => false
         end).

(** The status that reports success on each route. *)
Definition success_code (c : Call) : Z :=
  match c with
  | Create => 201
  | _ => 200
  end.

(** The world after a sequence of requests, served one after the other. *)
Fixpoint serve_all (calls : list (Call * Env * Request)) (w : World) : World :=
  match calls with
  | [] => w
  | (c, env, req) :: rest => serve_all rest (world (serve c env req w))
  end.

(** No row has the rowid [z], and the sequence has passed it: [z] is
    spent. *)
Definition spent (z : Z) (t : DB) : Prop :=
  (forall r, r ∈ rows t -> id r <> z) /\ z <= seq t.

End Sessions.

(** ** Sample data *)

(** The integer literals among the texts SQLite's numeric affinity reads. *)
Fixpoint decimal_from (s : string) (acc : Z) : option Z :=
  match s with
  | EmptyString => Some acc
  | String c rest =>
      let n := N_of_ascii c in
      if ((48 <=? n) && (n <=? 57))%N
      then decimal_from rest (10 * acc + Z.of_N (n - 48))
      else None
  end.

Definition decimal (s : string) : option Z :=
  if bool_decide (s = "") then None else decimal_from s 0.

Definition posix : Platform :=
  {| UPLOAD_DIR := "/srv/app/uploads"; numeric_affinity := decimal;
     error_page := "Internal Server Error" |}.

Definition quiet : Env := mkEnv None None None (fun _ => false).

Definition busy_lookup : Env := mkEnv (Some "SQLITE_BUSY") None None (fun _ => false).

Definition busy_write : Env := mkEnv None (Some "SQLITE_BUSY") None (fun _ => false).

Definition empty_world : World := mkWorld (mkDB [] 0) ∅.

Definition notes_pdf (now : Z) : Part :=
  mkPart "pdf" "algebra notes.pdf" "application/pdf" "%PDF-1.4 notes" now.

Definition cover_png (now : Z) : Part :=
  mkPart "image" "cover.png" "image/png" "PNG cover" now.

(** [Create({name:"Algebra Notes", desc:"Ch1-3", category:"Math"}, pdf, no image)] *)
Definition algebra (now : Z) : Request :=
  mkRequest "http" "localhost:5000" "" (Some "Algebra Notes") (Some "Ch1-3") (Some "Math")
    (Some [notes_pdf now]).

Definition algebra_with_cover (now : Z) : Request :=
  mkRequest "http" "localhost:5000" "" (Some "Algebra Notes") (Some "Ch1-3") (Some "Math")
    (Some [notes_pdf now; cover_png now]).

(** The same form with the name left out. *)
Definition nameless (now : Z) : Request :=
  mkRequest "http" "localhost:5000" "" None (Some "Ch1-3") (Some "Math")
    (Some [notes_pdf now]).

Definition algebra_row : Row :=
  mkRow 1 "Algebra Notes" "Ch1-3" "Math"
    "/srv/app/uploads/pdfs/1700000000000-algebra_notes.pdf" None.

Definition covered_row : Row :=
  mkRow 1 "Algebra Notes" "Ch1-3" "Math"
    "/srv/app/uploads/pdfs/1700000000000-algebra_notes.pdf"
    (Some "/srv/app/uploads/images/1700000000000-cover.png").

(** The world after the sample material was created without an image. *)
Definition algebra_world : World :=
  mkWorld (mkDB [algebra_row] 1)
    {[ "/srv/app/uploads/pdfs/1700000000000-algebra_notes.pdf" := "%PDF-1.4 notes" ]}.

(** The same material with its cover image. *)
Definition covered_world : World :=
  mkWorld (mkDB [covered_row] 1)
    {[ "/srv/app/uploads/pdfs/1700000000000-algebra_notes.pdf" := "%PDF-1.4 notes";
       "/srv/app/uploads/images/1700000000000-cover.png" := "PNG cover" ]}.

Definition by_id (ident : string) : Request :=
  mkRequest "http" "localhost:5000" ident None None None None.

(** [PUT /api/materials/:id] with new texts and the given file parts. *)
Definition revise (ident : string) (files : list Part) : Request :=
  mkRequest "http" "localhost:5000" ident (Some "Algebra II") (Some "Ch4-6") (Some "Math")
    (Some files).

Definition second_edition (now : Z) : Part :=
  mkPart "pdf" "algebra 2.pdf" "application/pdf" "%PDF-1.4 second" now.

Definition second_edition_file : File :=
  mkFile "pdf" "algebra 2.pdf" "application/pdf"
    "/srv/app/uploads/pdfs/1700000500000-algebra_2.pdf".

Definition notes_file : File :=
  mkFile "pdf" "algebra notes.pdf" "application/pdf"
    "/srv/app/uploads/pdfs/1700000000000-algebra_notes.pdf".

Definition cover_file : File :=
  mkFile "image" "cover.png" "image/png"
    "/srv/app/uploads/images/1700000000000-cover.png".

(** A form whose document is not a PDF. *)
Definition plain_text : Request :=
  mkRequest "http" "localhost:5000" "1" (Some "Algebra Notes") (Some "Ch1-3") (Some "Math")
    (Some [mkPart "pdf" "notes.txt" "text/plain" "plain notes" 1700000000000]).

(** The three texts sent as a JSON body, not as a multipart form. *)
Definition as_json (ident : string) : Request :=
  mkRequest "http" "localhost:5000" ident (Some "Algebra Notes") (Some "Ch1-3")
    (Some "Math") None.

(** A file system on which no file can be removed. *)
Definition read_only : Env := mkEnv None None None (fun _ => true).

Definition new_cover (now : Z) : Part :=
  mkPart "image" "new cover.jpg" "image/jpeg" "JPEG cover" now.

Definition new_cover_file : File :=
  mkFile "image" "new cover.jpg" "image/jpeg"
    "/srv/app/uploads/images/1700000500000-new_cover.jpg".

(** * Properties *)

Section Properties.
Context {platform : Platform}.

(** ** WHERE clauses *)

Lemma duplicate_where_selected (n d c p : string) (i : option string) (r : Row) :
  selected (duplicate_where (SText n) (SText d) (SText c) (SText p) (bind i) r) = true
  <-> name r = n /\ desc r = d /\ category r = c /\ pdf_path r = p
      /\ (image_path r = None \/ image_path r = i).
Proof.
  unfold duplicate_where.
  destruct (image_path r) as [q|], i as [j|]; simpl;
    repeat case_bool_decide; simpl; intuition congruence.
Qed.

Lemma id_where_selected (materialId : string) (r : Row) :
  selected (id_where materialId r) = true <-> numeric_affinity materialId = Some (id r).
Proof.
  unfold id_where. destruct (numeric_affinity materialId) as [z|]; simpl.
  - case_bool_decide; simpl; intuition congruence.
  - intuition congruence.
Qed.

Lemma find_elem_of {A} (f : A -> bool) (l : list A) (x : A) :
  List.find f l = Some x -> x ∈ l /\ f x = true.
Proof. intros H. apply find_some in H. rewrite list_elem_of_In. exact H. Qed.

Lemma find_none_iff {A} (f : A -> bool) (l : list A) :
  List.find f l = None <-> forall x, x ∈ l -> f x = false.
Proof.
  split.
  - intros H x Hx. apply (find_none f l H). by apply list_elem_of_In.
  - induction l as [|a l IH]; simpl; [done|]. intros H.
    rewrite (H a) by apply list_elem_of_here.
    apply IH. intros x Hx. apply H. by apply list_elem_of_further.
Qed.

Lemma find_is_some {A} (f : A -> bool) (l : list A) (x : A) :
  x ∈ l -> f x = true -> exists y, List.find f l = Some y.
Proof.
  intros Hx Hf. destruct (List.find f l) as [y|] eqn:E; [eauto|].
  rewrite find_none_iff in E. specialize (E x Hx). congruence.
Qed.

(** A row with the supplied texts and document path and no image is a hit
    of the duplicate check whatever image path is supplied. *)
Lemma duplicate_check_hit (env : Env) (n d c p : string) (i : option string)
    (t : DB) (r : Row) :
  get_err env = None -> r ∈ rows t ->
  name r = n -> desc r = d -> category r = c -> pdf_path r = p ->
  image_path r = None \/ image_path r = i ->
  checkDuplicateMaterial env (Some n) (Some d) (Some c) (Some p) i t = inr true.
Proof.
  intros Hget Hin Hn Hd Hc Hp Hi. unfold checkDuplicateMaterial, db_get.
  rewrite Hget. simpl.
  destruct (find_is_some
              (fun r => selected (duplicate_where (SText n) (SText d) (SText c)
                                    (SText p) (bind i) r)) (rows t) r Hin) as [y ->];
    [|done].
  by apply duplicate_where_selected.
Qed.

(** C2 (as amended): when the SELECT succeeds, the duplicate check answers
    true exactly when some row has the supplied name, description, category
    and document path and an image path that is null or equal to the
    supplied one; otherwise it answers false. *)
Theorem checkDuplicateMaterial_exact (env : Env) (n d c p : string)
    (i : option string) (t : DB) :
  get_err env = None ->
  exists b : bool,
    checkDuplicateMaterial env (Some n) (Some d) (Some c) (Some p) i t = inr b
    /\ (b = true <->
        exists r, r ∈ rows t /\ name r = n /\ desc r = d /\ category r = c
                  /\ pdf_path r = p /\ (image_path r = None \/ image_path r = i)).
Proof.
  intros Hget. unfold checkDuplicateMaterial, db_get. rewrite Hget. simpl.
  destruct (List.find _ (rows t)) as [r|] eqn:E.
  - exists true. split; [done|]. split; [intros _|done].
    apply find_elem_of in E as [Hin Hsel].
    exists r. split; [done|]. by apply duplicate_where_selected.
  - exists false. split; [done|]. split; [done|].
    intros (r & Hin & Hr). rewrite find_none_iff in E. specialize (E r Hin).
    assert (selected (duplicate_where (SText n) (SText d) (SText c) (SText p) (bind i) r)
            = true) as Hs by (by apply duplicate_where_selected).
    simpl in E. congruence.
Qed.


(** ** Uploads *)

Lemma first_file_app_none (f : string) (l1 l2 : list File) :
  first_file f l1 = None -> first_file f (l1 ++ l2) = first_file f l2.
Proof.
  unfold first_file. induction l1 as [|a l1 IH]; simpl; [done|].
  destruct (bool_decide (fieldname a = f)); [done|]. exact IH.
Qed.

(** A field for which the form has no file stays without a file. *)
Lemma upload_parts_first_file_none (f : string) (ps : list Part) :
  forall left done files uploaded files',
    existsb (fun p => bool_decide (part_field p = f)
                      && negb (bool_decide (part_filename p = ""))) ps = false ->
    first_file f done = None ->
    upload_parts ps left done files = (inr uploaded, files') ->
    first_file f uploaded = None.
Proof.
  induction ps as [|p ps IH]; simpl; intros left done files uploaded files' Hno Hdone Hup.
  - by simplify_eq.
  - apply orb_false_iff in Hno as [Hp Hps].
    case_bool_decide as Hname; [by eapply IH|].
    destruct (default 0%nat (left !! part_field p)); [done|].
    destruct (fileFilter _ _); [done|].
    eapply IH; [exact Hps| |exact Hup].
    rewrite first_file_app_none by done. simpl.
    case_bool_decide as Hf; [|done]. done.
Qed.

Lemma upload_first_file_none (f : string) (req : Request) (files : gmap string string)
    (uploaded : list File) (files' : gmap string string) :
  has_part f req = false ->
  upload req files = (inr uploaded, files') ->
  first_file f uploaded = None.
Proof.
  intros Hno Hup.
  exact (upload_parts_first_file_none f (parts req) _ [] _ _ _ Hno eq_refl Hup).
Qed.

(** ** Rowids *)

Lemma increasing_lower (lo : Z) (ids : list Z) :
  increasing lo ids = true -> forall i, i ∈ ids -> lo < i.
Proof.
  revert lo. induction ids as [|j ids IH]; simpl; intros lo H i Hi.
  - by apply elem_of_nil in Hi.
  - apply andb_true_iff in H as [Hj Hrest]. apply bool_decide_eq_true in Hj.
    apply elem_of_cons in Hi as [->|Hi]; [done|].
    specialize (IH j Hrest i Hi). lia.
Qed.

Lemma increasing_same_id (lo : Z) (l : list Row) (r e : Row) :
  increasing lo (id <$> l) = true -> r ∈ l -> e ∈ l -> id r = id e -> r = e.
Proof.
  revert lo. induction l as [|a l IH]; simpl; intros lo H Hr He Hid.
  - by apply elem_of_nil in Hr.
  - apply andb_true_iff in H as [_ Hrest].
    assert (forall x, x ∈ l -> id a < id x) as Hlow.
    { intros x Hx. apply (increasing_lower _ _ Hrest). by apply list_elem_of_fmap_2. }
    apply elem_of_cons in Hr as [->|Hr]; apply elem_of_cons in He as [->|He].
    + done.
    + specialize (Hlow e He). lia.
    + specialize (Hlow r Hr). lia.
    + by eapply IH.
Qed.

Lemma db_wf_spec (t : DB) :
  db_wf t = true
  <-> increasing 0 (id <$> rows t) = true
      /\ (forall r, r ∈ rows t -> id r <= seq t)
      /\ 0 <= seq t.
Proof.
  unfold db_wf. rewrite !andb_true_iff, bool_decide_eq_true, forallb_forall.
  setoid_rewrite bool_decide_eq_true. setoid_rewrite list_elem_of_In. tauto.
Qed.


(** In a well-formed table [id = ?] selects at most the row [db.get] returns. *)
Lemma lookup_unique (env : Env) (materialId : string) (t : DB) (e r : Row) :
  db_wf t = true ->
  db_get env (id_where materialId) t = inr (Some e) ->
  r ∈ rows t -> selected (id_where materialId r) = true -> r = e.
Proof.
  unfold db_get. intros Hwf Hget Hr Hsel.
  apply db_wf_spec in Hwf as (Hinc & _ & _).
  destruct (get_err env); [done|]. simplify_eq.
  match goal with H : List.find _ _ = Some _ |- _ => apply find_elem_of in H as [He Hesel] end.
  apply id_where_selected in Hsel. apply id_where_selected in Hesel.
  eapply increasing_same_id; [exact Hinc|done|done|congruence].
Qed.

Lemma lookup_found (env : Env) (materialId : string) (t : DB) (e : Row) :
  db_get env (id_where materialId) t = inr (Some e) ->
  get_err env = None /\ e ∈ rows t /\ numeric_affinity materialId = Some (id e).
Proof.
  unfold db_get. destruct (get_err env); [done|]. intros H. simplify_eq.
  match goal with H : List.find _ _ = Some _ |- _ => apply find_elem_of in H as [He Hesel] end.
  by apply id_where_selected in Hesel.
Qed.

(** ** Create *)

(** C9: when the form of a Create carries an image and some stored row
    without an image has the form's name, description and category and the
    document path of the uploaded document, the duplicate check answers
    true and the Create is answered 409 without touching the table. *)
Theorem create_with_image_hits_imageless_row (env : Env) (req : Request) (w : World)
    (uploaded : list File) (files : gmap string string) (n d c : string)
    (pdfFile imageFile : File) (r : Row) :
  parsed req w uploaded files n d c ->
  first_file "pdf" uploaded = Some pdfFile ->
  first_file "image" uploaded = Some imageFile ->
  get_err env = None ->
  r ∈ rows (db w) ->
  name r = n -> desc r = d -> category r = c -> pdf_path r = path pdfFile ->
  image_path r = None ->
  checkDuplicateMaterial env (Some n) (Some d) (Some c) (Some (path pdfFile))
    (Some (path imageFile)) (db w) = inr true
  /\ fails_with (post_materials env req w) 409 "Material already exists!"
  /\ db (world (post_materials env req w)) = db w.
Proof.
  intros (Hup & Hn & Hd & Hc & Hform) Hpdf Himg Hget Hr Hrn Hrd Hrc Hrp Hri.
  assert (checkDuplicateMaterial env (Some n) (Some d) (Some c) (Some (path pdfFile))
            (Some (path imageFile)) (db w) = inr true) as Hdup.
  { apply (duplicate_check_hit env n d c (path pdfFile) _ (db w) r); auto. }
  split; [exact Hdup|].
  unfold post_materials, fails_with.
  destruct (form req) as [ps|]; [|done].
  rewrite Hup, Hn, Hd, Hc, Hpdf, Himg. simpl. rewrite Hdup. done.
Qed.

(** ** Delete *)

(** C8: a Delete whose id selects no row is answered 404 and leaves the
    table and the files exactly as they were. *)
Theorem delete_unknown_id (env : Env) (req : Request) (w : World) :
  (forall r, r ∈ rows (db w) -> selected (id_where (params_id req) r) = false) ->
  fails_with (delete_material env req w) 404 "Material not found."
  /\ world (delete_material env req w) = w.
Proof.
  intros Hnone. apply find_none_iff in Hnone.
  unfold delete_material, fails_with, db_get. rewrite Hnone.
  by destruct (get_err env).
Qed.

(** ** Removing files *)

Lemma existsSync_false (p : string) (files : gmap string string) :
  existsSync p files = false <-> files !! p = None.
Proof.
  unfold existsSync. rewrite bool_decide_eq_false, <- eq_None_not_Some. done.
Qed.

(** Guarded by [existsSync], removal of an absent file is a no-op, and
    removal amounts to deleting the path. *)
Lemma unlink_if_exists_ok (env : Env) (p : string) (files : gmap string string) :
  unlink_err env p = false -> unlink_if_exists env p files = Some (delete p files).
Proof.
  intros Hok. unfold unlink_if_exists, unlinkSync.
  destruct (existsSync p files) eqn:E.
  - by rewrite Hok.
  - apply existsSync_false in E. by rewrite delete_id.
Qed.

Lemma unlink_if_exists_absent (env : Env) (p : string) (files : gmap string string) :
  files !! p = None -> unlink_if_exists env p files = Some files.
Proof.
  intros Habsent. apply existsSync_false in Habsent.
  unfold unlink_if_exists. by rewrite Habsent.
Qed.

Lemma unlink_image_if_exists_ok (env : Env) (i : option string)
    (files : gmap string string) :
  (forall p, unlink_err env p = false) ->
  unlink_image_if_exists env i files = Some (without_image i files).
Proof.
  intros Hok. unfold unlink_image_if_exists, without_image.
  destruct (required i); [|done]. by apply unlink_if_exists_ok.
Qed.

Lemma without_image_lookup (i : option string) (files : gmap string string) (p : string) :
  files !! p = None -> without_image i files !! p = None.
Proof.
  intros H. unfold without_image. destruct (required i); [|done].
  rewrite lookup_delete_None. by right.
Qed.

Lemma filter_elem_of {A} (f : A -> bool) (l : list A) (x : A) :
  x ∈ List.filter f l <-> x ∈ l /\ f x = true.
Proof. rewrite !list_elem_of_In. apply filter_In. Qed.

(** C5: a Delete that finds its row, with the file system and the DELETE
    statement working, is answered 200; afterwards the row's document and
    its image (if it has one) are not on disk, whether or not they were
    there before, exactly the rows with that id are gone from the table,
    and a following List shows no material with that id. *)
Theorem delete_existing (env : Env) (req : Request) (w : World) (row : Row) :
  lookup env req w = inr (Some row) ->
  run_err env = None ->
  (forall p, unlink_err env p = false) ->
  response (delete_material env req w)
  = Some (mkResponse 200 (JObj [("message", JStr "Material deleted successfully.")]))
  /\ fs (world (delete_material env req w))
     = without_image (image_path row) (delete (pdf_path row) (fs w))
  /\ fs (world (delete_material env req w)) !! pdf_path row = None
  /\ (forall p, required (image_path row) = Some p ->
      fs (world (delete_material env req w)) !! p = None)
  /\ rows (db (world (delete_material env req w)))
     = List.filter (fun r => negb (bool_decide (id r = id row))) (rows (db w))
  /\ (row ∉ rows (db (world (delete_material env req w))))
  /\ forall env' req', all_err env' = None ->
       exists items,
         response (get_materials env' req' (world (delete_material env req w)))
         = Some (mkResponse 200 (JArr items))
         /\ forall item, item ∈ items -> field "id" item <> Some (JNum (id row)).
Proof.
  intros Hlook Hrun Hfs.
  destruct (lookup_found _ _ _ _ Hlook) as (_ & Hin & Haff).
  assert (rows (db (world (delete_material env req w)))
          = List.filter (fun r => negb (bool_decide (id r = id row))) (rows (db w))
          /\ fs (world (delete_material env req w))
             = without_image (image_path row) (delete (pdf_path row) (fs w))
          /\ response (delete_material env req w)
             = Some (mkResponse 200 (JObj [("message", JStr "Material deleted successfully.")])))
    as (Hrows & Hfiles & Hresp).
  { unfold lookup in Hlook. unfold delete_material. rewrite Hlook.
    rewrite unlink_if_exists_ok by apply Hfs.
    rewrite unlink_image_if_exists_ok by apply Hfs.
    unfold db_delete. rewrite Hrun. simpl. split; [|done].
    apply filter_ext. intros r. unfold id_where. rewrite Haff. simpl.
    by repeat case_bool_decide. }
  split; [exact Hresp|]. split; [exact Hfiles|].
  split; [rewrite Hfiles; apply without_image_lookup, lookup_delete_eq|].
  split.
  { intros p Hp. rewrite Hfiles. unfold without_image. rewrite Hp.
    apply lookup_delete_eq. }
  split; [exact Hrows|]. split.
  { rewrite Hrows, filter_elem_of. intros [_ Hne].
    by rewrite bool_decide_eq_true_2 in Hne. }
  intros env' req' Hall. unfold get_materials, db_all. rewrite Hall.
  eexists. split; [reflexivity|].
  intros item Hitem. apply list_elem_of_fmap in Hitem as (r & -> & Hr).
  rewrite Hrows, filter_elem_of in Hr. destruct Hr as [_ Hne].
  apply negb_true_iff, bool_decide_eq_false in Hne.
  simpl. congruence.
Qed.

(** ** Update *)


(** What [put_material] does once the form is parsed and the row found. *)
Lemma put_material_found (env : Env) (req : Request) (w : World)
    (uploaded : list File) (files : gmap string string) (n d c : string)
    (existing : Row) :
  parsed req w uploaded files n d c ->
  lookup env req w = inr (Some existing) ->
  run_err env = None ->
  (forall p, unlink_err env p = false) ->
  let newPdfPath :=
    match first_file "pdf" uploaded with
    | Some f => path f
    | None => pdf_path existing
    end in
  let newImagePath :=
    match first_file "image" uploaded with
    | Some f => Some (path f)
    | None => image_path existing
    end in
  put_material env req w
  = reply 200
      (material_body "Material updated successfully!" (JStr (params_id req)) n d c req
         newPdfPath newImagePath)
      (mkWorld
         (mkDB ((fun r => if bool_decide (id r = id existing)
                          then mkRow (id r) n d c newPdfPath newImagePath else r)
                <$> rows (db w)) (seq (db w)))
         (match first_file "image" uploaded with
          | Some _ => without_image (image_path existing)
          | None => fun m => m
          end
            (match first_file "pdf" uploaded with
             | Some _ => delete (pdf_path existing) files
             | None => files
             end))).
Proof.
  intros (Hup & Hn & Hd & Hc & Hform) Hlook Hrun Hfs.
  destruct (lookup_found _ _ _ _ Hlook) as (_ & Hin & Haff).
  unfold lookup in Hlook. unfold put_material.
  destruct (form req) as [ps|]; [|done].
  rewrite Hup, Hn, Hd, Hc, Hlook. simpl.
  assert (forall p i, db_update env n d c p i (params_id req) (db w)
          = inr (mkDB ((fun r => if bool_decide (id r = id existing)
                                 then mkRow (id r) n d c p i else r)
                       <$> rows (db w)) (seq (db w)))) as Hdb.
  { intros p i. unfold db_update. rewrite Hrun. do 2 f_equal.
    apply list_fmap_ext. intros _ r _. unfold id_where. rewrite Haff. simpl.
    by repeat case_bool_decide. }
  destruct (first_file "pdf" uploaded) as [pdfFile|];
    destruct (first_file "image" uploaded) as [imageFile|]; simpl;
    rewrite ?unlink_if_exists_ok by apply Hfs;
    rewrite ?unlink_image_if_exists_ok by apply Hfs;
    simpl; rewrite ?unlink_image_if_exists_ok by apply Hfs; rewrite Hdb; done.
Qed.

(** C6: an Update that finds its row and brings a new document, with the
    file system and the UPDATE statement working, removes the previous
    document from disk, leaves the row with the new file's path as its
    document path, and answers 200 with the [pdf_link] built from the new
    file's path. *)
Theorem update_with_new_document (env : Env) (req : Request) (w : World)
    (uploaded : list File) (files : gmap string string) (n d c : string)
    (existing : Row) (pdfFile : File) :
  parsed req w uploaded files n d c ->
  lookup env req w = inr (Some existing) ->
  first_file "pdf" uploaded = Some pdfFile ->
  run_err env = None ->
  (forall p, unlink_err env p = false) ->
  fs (world (put_material env req w)) !! pdf_path existing = None
  /\ (exists r, r ∈ rows (db (world (put_material env req w))) /\ id r = id existing)
  /\ (forall r, r ∈ rows (db (world (put_material env req w))) ->
      id r = id existing -> pdf_path r = path pdfFile)
  /\ exists b, response (put_material env req w) = Some (mkResponse 200 b)
       /\ field "material" b ≫= field "pdf_link"
          = Some (JStr (upload_link req "pdfs" (path pdfFile))).
Proof.
  intros Hparsed Hlook Hpdf Hrun Hfs.
  destruct (lookup_found _ _ _ _ Hlook) as (_ & Hin & _).
  rewrite (put_material_found env req w uploaded files n d c existing) by done.
  rewrite Hpdf. simpl. repeat split.
  - destruct (first_file "image" uploaded).
    + apply without_image_lookup, lookup_delete_eq.
    + apply lookup_delete_eq.
  - eexists. split; [apply list_elem_of_fmap; eexists; split; [reflexivity|exact Hin]|].
    by case_bool_decide.
  - intros r Hr Hid. apply list_elem_of_fmap in Hr as (r0 & -> & _).
    case_bool_decide as E; [done|]. done.
  - eexists. split; reflexivity.
Qed.


(** The UPDATE statement of a request without a new image rewrites no
    image path of a well-formed table. *)
Lemma db_update_keeps_images (env : Env) (n d c p : string) (materialId : string)
    (t t' : DB) (existing : Row) :
  db_wf t = true ->
  db_get env (id_where materialId) t = inr (Some existing) ->
  db_update env n d c p (image_path existing) materialId t = inr t' ->
  (fun r => (id r, image_path r)) <$> rows t' = (fun r => (id r, image_path r)) <$> rows t.
Proof.
  intros Hwf Hget Hupd. unfold db_update in Hupd.
  destruct (run_err env); [done|]. simplify_eq. simpl.
  rewrite <- list_fmap_compose. apply list_fmap_ext. intros k r Hr. simpl.
  destruct (selected (id_where materialId r)) eqn:Hsel; [|done]. simpl.
  apply list_elem_of_lookup_2 in Hr.
  by rewrite (lookup_unique env materialId t existing r Hwf Hget Hr Hsel).
Qed.

(** C7: an Update whose form carries no image leaves the image path of
    every row as it was, whatever the outcome; when it is answered 200 the
    [image_link] is the one of the image path the row already had. *)
Theorem update_without_image_keeps_image_path (env : Env) (req : Request) (w : World) :
  db_wf (db w) = true ->
  has_part "image" req = false ->
  (fun r => (id r, image_path r)) <$> rows (db (world (put_material env req w)))
  = (fun r => (id r, image_path r)) <$> rows (db w)
  /\ forall existing b,
       lookup env req w = inr (Some existing) ->
       response (put_material env req w) = Some (mkResponse 200 b) ->
       field "material" b ≫= field "image_link"
       = Some (image_link req (image_path existing)).
Proof.
  intros Hwf Hnoimg. unfold lookup, put_material.
  destruct (upload req (fs w)) as [[msg|uploaded] files] eqn:Hup; simpl;
    [split; [done|by intros]|].
  rewrite (upload_first_file_none _ _ _ _ _ Hnoimg Hup).
  destruct (required (body_name req)) as [n|]; [|split; [done|by intros]].
  destruct (required (body_desc req)) as [d|]; [|split; [done|by intros]].
  destruct (required (body_category req)) as [c|]; [|split; [done|by intros]].
  destruct (db_get env (id_where (params_id req)) (db w)) as [e|[existing|]] eqn:Hget;
    [split; [done|by intros]| |split; [done|by intros]].
  destruct (form req) as [ps|]; [|split; [done|by intros]].
  set (after_pdf := match first_file "pdf" uploaded with
                    | Some f => (unlink_if_exists env (pdf_path existing) files, path f)
                    | None => (Some files, pdf_path existing)
                    end).
  destruct after_pdf as [[files1|] newPdfPath]; [|split; [done|by intros]].
  simpl.
  destruct (db_update env n d c newPdfPath (image_path existing) (params_id req) (db w))
    as [e|t'] eqn:Hupd; [split; [done|by intros]|].
  simpl. split.
  - by eapply db_update_keeps_images.
  - intros existing' b Heq Hb. by simplify_eq.
Qed.

(** ** Payloads *)


(** ** Error kinds *)

Lemma mutate_not_found (k : Mutation) (env : Env) (req : Request) (w : World) :
  reaches_lookup k req w ->
  (forall row, lookup env req w <> inr (Some row)) ->
  fails_with (mutate k env req w) 404 "Material not found.".
Proof.
  unfold lookup, fails_with. intros Hreach Hnone. destruct k; simpl.
  - unfold delete_material.
    destruct (db_get env _ (db w)) as [e|[row|]]; [done| |done].
    by destruct (Hnone row).
  - destruct Hreach as (uploaded & files & n & d & c & Hup & Hn & Hd & Hc & Hform).
    unfold put_material. rewrite Hup, Hn, Hd, Hc.
    destruct (db_get env _ (db w)) as [e|[row|]]; [done| |done].
    by destruct (Hnone row).
Qed.

(** C4 (as amended): in a Delete, and in an Update whose form was parsed,
    an id that selects no row is answered 404, and so is a lookup that the
    database fails; once the row is found and its files are removed, a
    failing DELETE or UPDATE statement is answered 500. *)
Theorem mutation_error_kinds (k : Mutation) (env : Env) (req : Request) (w : World) :
  reaches_lookup k req w ->
  (lookup env req w = inr None ->
   fails_with (mutate k env req w) 404 "Material not found.")
  /\ (forall msg, get_err env = Some msg ->
      fails_with (mutate k env req w) 404 "Material not found.")
  /\ (forall row msg,
        lookup env req w = inr (Some row) ->
        (forall p, unlink_err env p = false) ->
        run_err env = Some msg ->
        fails_with (mutate k env req w) 500 (write_error k msg)).
Proof.
  intros Hreach. split; [|split].
  - intros Hnone. apply mutate_not_found; [done|]. congruence.
  - intros msg Hget. apply mutate_not_found; [done|].
    unfold lookup, db_get. by rewrite Hget.
  - intros row msg Hlook Hfs Hrun. unfold lookup in Hlook. unfold fails_with.
    destruct k; simpl.
    + unfold delete_material. rewrite Hlook.
      rewrite unlink_if_exists_ok by apply Hfs.
      rewrite unlink_image_if_exists_ok by apply Hfs.
      unfold db_delete. by rewrite Hrun.
    + destruct Hreach as (uploaded & files & n & d & c & Hup & Hn & Hd & Hc & Hform).
      unfold put_material. destruct (form req) as [ps|]; [|done].
      rewrite Hup, Hn, Hd, Hc, Hlook.
      destruct (first_file "pdf" uploaded); destruct (first_file "image" uploaded);
        rewrite ?unlink_if_exists_ok by apply Hfs; simpl;
        rewrite ?unlink_image_if_exists_ok by apply Hfs;
        unfold db_update; by rewrite Hrun.
Qed.

(** X20: no route catches what [fs.unlinkSync] throws: when the document
    of the row is on disk and cannot be removed, Delete sends no response
    and changes nothing. *)
Lemma delete_unlink_failure_uncaught (env : Env) (req : Request) (w : World) (row : Row) :
  lookup env req w = inr (Some row) ->
  is_Some (fs w !! pdf_path row) ->
  unlink_err env (pdf_path row) = true ->
  delete_material env req w = uncaught w.
Proof.
  intros Hlook Hthere Hthrow. unfold lookup in Hlook.
  unfold delete_material, unlink_if_exists, unlinkSync, existsSync.
  rewrite Hlook, bool_decide_eq_true_2 by done. by rewrite Hthrow.
Qed.

(** ** The table stays well formed *)

Lemma increasing_snoc (lo : Z) (ids : list Z) (i : Z) :
  increasing lo ids = true -> lo < i -> (forall j, j ∈ ids -> j < i) ->
  increasing lo (ids ++ [i]) = true.
Proof.
  revert lo. induction ids as [|j ids IH]; simpl; intros lo H Hlo Hlt.
  - by rewrite bool_decide_eq_true_2.
  - apply andb_true_iff in H as [Hj Hrest]. rewrite Hj. simpl.
    apply IH; [done| |].
    + apply Hlt, list_elem_of_here.
    + intros k Hk. by apply Hlt, list_elem_of_further.
Qed.

Lemma increasing_weaken (lo lo' : Z) (ids : list Z) :
  lo' <= lo -> increasing lo ids = true -> increasing lo' ids = true.
Proof.
  destruct ids as [|i ids]; simpl; [done|]. intros Hle H.
  apply andb_true_iff in H as [Hi Hrest]. apply bool_decide_eq_true in Hi.
  rewrite bool_decide_eq_true_2 by lia. done.
Qed.

Lemma increasing_filter (f : Row -> bool) (lo : Z) (l : list Row) :
  increasing lo (id <$> l) = true -> increasing lo (id <$> List.filter f l) = true.
Proof.
  revert lo. induction l as [|a l IH]; simpl; intros lo H; [done|].
  apply andb_true_iff in H as [Ha Hrest]. apply bool_decide_eq_true in Ha.
  destruct (f a); simpl.
  - rewrite bool_decide_eq_true_2 by done. by apply IH.
  - apply IH. eapply increasing_weaken; [|exact Hrest]. lia.
Qed.

Lemma largest_rowid_wf (t : DB) : db_wf t = true -> largest_rowid t = seq t.
Proof.
  intros (_ & Hall & _)%db_wf_spec. unfold largest_rowid.
  induction (rows t) as [|a l IH]; simpl; [done|].
  rewrite IH.
  - pose proof (Hall a (list_elem_of_here _ _)). lia.
  - intros r Hr. by apply Hall, list_elem_of_further.
Qed.

Lemma db_insert_wf (env : Env) (n d c p : string) (i : option string) (t t' : DB)
    (lastID : Z) :
  db_wf t = true -> db_insert env n d c p i t = inr (lastID, t') -> db_wf t' = true.
Proof.
  unfold db_insert. intros Hwf Hins.
  destruct (run_err env); [done|]. simplify_eq.
  rewrite (largest_rowid_wf t Hwf).
  apply db_wf_spec in Hwf as (Hinc & Hall & Hpos). apply db_wf_spec. simpl.
  split; [|split; [|lia]].
  - rewrite fmap_app. simpl. apply increasing_snoc; [done|lia|].
    intros j (r & -> & Hr)%list_elem_of_fmap. specialize (Hall r Hr). lia.
  - intros r [Hr| ->%list_elem_of_singleton]%elem_of_app; simpl; [|lia].
    specialize (Hall r Hr). lia.
Qed.

Lemma db_delete_wf (env : Env) (materialId : string) (t t' : DB) :
  db_wf t = true -> db_delete env materialId t = inr t' -> db_wf t' = true.
Proof.
  unfold db_delete. intros Hwf Hdel.
  destruct (run_err env); [done|]. simplify_eq.
  apply db_wf_spec in Hwf as (Hinc & Hall & Hpos). apply db_wf_spec. simpl.
  split; [by apply increasing_filter|]. split; [|done].
  intros r [Hr _]%filter_elem_of. by apply Hall.
Qed.

Lemma db_update_wf (env : Env) (n d c p : string) (i : option string)
    (materialId : string) (t t' : DB) :
  db_wf t = true -> db_update env n d c p i materialId t = inr t' -> db_wf t' = true.
Proof.
  unfold db_update. intros Hwf Hupd.
  destruct (run_err env); [done|]. simplify_eq.
  apply db_wf_spec in Hwf as (Hinc & Hall & Hpos). apply db_wf_spec. simpl.
  split; [|split; [|done]].
  - rewrite <- list_fmap_compose.
    erewrite list_fmap_ext; [exact Hinc|].
    intros k r _. simpl. by destruct (selected _).
  - intros r' (r & -> & Hr)%list_elem_of_fmap.
    destruct (selected _); simpl; by apply Hall.
Qed.

(** Every route hands a well-formed table on. *)
Theorem routes_keep_table_well_formed (env : Env) (req : Request) (w : World) :
  db_wf (db w) = true ->
  db_wf (db (world (post_materials env req w))) = true
  /\ db_wf (db (world (get_materials env req w))) = true
  /\ db_wf (db (world (delete_material env req w))) = true
  /\ db_wf (db (world (put_material env req w))) = true.
Proof.
  intros Hwf. repeat split.
  - unfold post_materials.
    destruct (upload req (fs w)) as [[msg|uploaded] files]; simpl; [done|].
    destruct (required (body_name req)) as [n|]; [|done].
    destruct (required (body_desc req)) as [d|]; [|done].
    destruct (required (body_category req)) as [c|]; [|done].
    destruct (form req) as [ps|]; [|done].
    destruct (first_file "pdf" uploaded) as [pdfFile|]; [|done].
    destruct (checkDuplicateMaterial _ _ _ _ _ _ _) as [e|[|]]; [done|done|].
    destruct (db_insert _ _ _ _ _ _ _) as [e|[lastID t']] eqn:Hins; [done|].
    simpl. by eapply db_insert_wf.
  - unfold get_materials. by destruct (db_all env (db w)).
  - unfold delete_material.
    destruct (db_get env _ (db w)) as [e|[row|]]; [done| |done].
    destruct (unlink_if_exists _ _ _); [|done].
    destruct (unlink_image_if_exists _ _ _); [|done].
    destruct (db_delete _ _ _) as [e|t'] eqn:Hdel; [done|].
    simpl. by eapply db_delete_wf.
  - unfold put_material.
    destruct (upload req (fs w)) as [[msg|uploaded] files]; simpl; [done|].
    destruct (required (body_name req)) as [n|]; [|done].
    destruct (required (body_desc req)) as [d|]; [|done].
    destruct (required (body_category req)) as [c|]; [|done].
    destruct (db_get env _ (db w)) as [e|[existing|]]; [done| |done].
    destruct (form req) as [ps|]; [|done].
    destruct (match first_file "pdf" uploaded with
              | Some f => (unlink_if_exists env (pdf_path existing) files, path f)
              | None => (Some files, pdf_path existing)
              end) as [[files1|] newPdfPath]; [|done].
    destruct (match first_file "image" uploaded with
              | Some f => (unlink_image_if_exists env (image_path existing) files1,
                           Some (path f))
              | None => (Some files1, image_path existing)
              end) as [[files2|] newImagePath]; [|done].
    destruct (db_update _ _ _ _ _ _ _ _) as [e|t'] eqn:Hupd; [done|].
    simpl. by eapply db_update_wf.
Qed.

(** X16: in every world the server reaches from an empty table, the rows
    are in increasing rowid order, the rowids are positive and distinct,
    and none is above the AUTOINCREMENT sequence. *)
Theorem reachable_well_formed (w : World) : reachable w -> db_wf (db w) = true.
Proof.
  induction 1 as [files|c env req w _ IH]; [reflexivity|].
  destruct (routes_keep_table_well_formed env req w IH) as (Hpost & Hget & Hdel & Hput).
  by destruct c as [| |[|]].
Qed.

(** ** Stored names and links *)

Lemma append_cons (c : ascii) (s t : string) : String c s +:+ t = String c (s +:+ t).
Proof. reflexivity. Qed.

Lemma append_snoc (s : string) (c : ascii) (t : string) :
  (s +:+ String c "") +:+ t = s +:+ String c t.
Proof. induction s as [|a s IH]; [done|]. by rewrite !append_cons, IH. Qed.

Lemma append_nil_r (s : string) : s +:+ "" = s.
Proof. induction s as [|a s IH]; [done|]. by rewrite append_cons, IH. Qed.

Lemma append_empty (s t : string) : s +:+ t = "" -> s = "" /\ t = "".
Proof. by destruct s. Qed.

Lemma has_slash_append (s t : string) :
  has_slash (s +:+ t) = has_slash s || has_slash t.
Proof.
  induction s as [|a s IH]; [done|].
  rewrite append_cons. simpl. by rewrite IH, orb_assoc.
Qed.

Lemma has_slash_replace_spaces (s : string) :
  has_slash (replace_spaces s) = has_slash s.
Proof.
  induction s as [|a s IH]; simpl; [done|]. rewrite IH. f_equal.
  destruct (is_space a) eqn:E; [|done].
  unfold is_slash. rewrite (bool_decide_eq_false_2 ("_"%char = "/"%char)) by done.
  symmetry. apply bool_decide_eq_false. by intros ->.
Qed.

Lemma has_slash_pretty_N_go (x : N) (s : string) :
  has_slash s = false -> has_slash (pretty_N_go x s) = false.
Proof.
  revert s. induction (N.lt_wf_0 x) as [x _ IH]. intros s Hs.
  destruct (decide (x = 0)%N) as [->|Hx]; [done|].
  rewrite pretty_N_go_step by lia. apply IH.
  - apply N.div_lt; lia.
  - simpl. rewrite Hs, orb_false_r. unfold pretty_N_char.
    by repeat case_match.
Qed.

Lemma has_slash_pretty (z : Z) : has_slash (pretty z) = false.
Proof.
  assert (forall n : N, has_slash (pretty n) = false) as HN.
  { intros n. unfold pretty, pretty_N. case_decide; [done|].
    by apply has_slash_pretty_N_go. }
  unfold pretty, pretty_Z. destruct z; [done|apply HN|].
  rewrite has_slash_append. apply orb_false_iff. split; [reflexivity|apply HN].
Qed.

Lemma storage_filename_plain (now : Z) (original : string) :
  has_slash original = false ->
  has_slash (storage_filename now original) = false
  /\ storage_filename now original <> "".
Proof.
  intros H. unfold storage_filename. split.
  - by rewrite !has_slash_append, has_slash_pretty, has_slash_replace_spaces, H.
  - intros [_ E]%append_empty. done.
Qed.

Lemma basename_from_plain (f cur last : string) :
  has_slash f = false ->
  basename_from f cur last = if bool_decide (cur +:+ f = "") then last else cur +:+ f.
Proof.
  revert cur. induction f as [|a f IH]; simpl; intros cur H.
  - by rewrite append_nil_r.
  - apply orb_false_iff in H as [Ha Hf]. rewrite Ha, IH by done.
    by rewrite append_snoc.
Qed.

(** [path.basename(path.join(dir, file)) = file] for a plain file name. *)
Lemma basename_join (dir f : string) :
  has_slash f = false -> f <> "" -> basename (dir +:+ "/" +:+ f) = f.
Proof.
  intros Hplain Hne. unfold basename.
  enough (forall cur seen, basename_from (dir +:+ "/" +:+ f) cur seen = f) by done.
  induction dir as [|a dir IH]; intros cur seen.
  - change ("" +:+ "/" +:+ f) with (String "/" f). simpl.
    rewrite basename_from_plain by done. by rewrite bool_decide_eq_false_2.
  - rewrite append_cons. simpl. destruct (is_slash a); apply IH.
Qed.

(** Every file in [req.files] comes from a part of the form and lies
    where the storage engine puts it. *)
Lemma upload_parts_files (ps : list Part) :
  forall left done files uploaded files' file,
    upload_parts ps left done files = (inr uploaded, files') ->
    file ∈ uploaded ->
    file ∈ done
    \/ exists p, p ∈ ps /\ part_filename p <> ""
         /\ file = mkFile (part_field p) (part_filename p) (part_mimetype p)
                     (storage_destination (part_field p) +:+ "/"
                      +:+ storage_filename (part_now p) (part_filename p)).
Proof.
  induction ps as [|p ps IH]; simpl; intros left done files uploaded files' file Hup Hin.
  - simplify_eq. by left.
  - case_bool_decide as Hname.
    { destruct (IH _ _ _ _ _ _ Hup Hin) as [?|(q & Hq & ?)]; [by left|].
      right. exists q. split; [by apply list_elem_of_further|done]. }
    destruct (default 0%nat (left !! part_field p)); [done|].
    destruct (fileFilter _ _); [done|].
    destruct (IH _ _ _ _ _ _ Hup Hin) as [Hd|(q & Hq & ?)].
    + apply elem_of_app in Hd as [?| ->%list_elem_of_singleton]; [by left|].
      right. exists p. split; [apply list_elem_of_here|done].
    + right. exists q. split; [by apply list_elem_of_further|done].
Qed.

Lemma first_file_stored (req : Request) (files files' : gmap string string)
    (uploaded : list File) (f : string) (file : File) :
  upload req files = (inr uploaded, files') ->
  first_file f uploaded = Some file ->
  exists p, p ∈ parts req /\ part_field p = f /\ part_filename p <> ""
    /\ originalname file = part_filename p
    /\ path file = storage_destination f +:+ "/"
                   +:+ storage_filename (part_now p) (part_filename p).
Proof.
  intros Hup Hfirst. apply find_elem_of in Hfirst as [Hin Hf].
  apply bool_decide_eq_true in Hf.
  destruct (upload_parts_files _ _ _ _ _ _ _ Hup Hin) as [Hd|(p & Hp & Hne & ->)].
  - by apply elem_of_nil in Hd.
  - simpl in Hf. subst f. by exists p.
Qed.

(** X19: the link of a stored file whose original name has no slash ends
    in the name the storage engine gave it: the clock reading, a dash and
    the original name with its spaces replaced. *)
Lemma upload_link_stored (req : Request) (partition dir : string) (now : Z)
    (original : string) :
  has_slash original = false ->
  upload_link req partition (dir +:+ "/" +:+ storage_filename now original)
  = protocol req +:+ "://" +:+ host req +:+ "/uploads/" +:+ partition +:+ "/"
    +:+ storage_filename now original.
Proof.
  intros H. unfold upload_link.
  destruct (storage_filename_plain now original H) as [Hplain Hne].
  by rewrite basename_join.
Qed.

(** ** When the duplicate check can fire *)

Lemma append_length (s t : string) :
  String.length (s +:+ t) = (String.length s + String.length t)%nat.
Proof. induction s as [|a s IH]; [done|]. rewrite append_cons. simpl. by rewrite IH. Qed.

Lemma append_cancel_r (s1 s2 t : string) : s1 +:+ t = s2 +:+ t -> s1 = s2.
Proof.
  revert s2. induction s1 as [|a s1 IH]; intros [|b s2] H.
  - done.
  - apply (f_equal String.length) in H. rewrite !append_length in H. simpl in H. lia.
  - apply (f_equal String.length) in H. rewrite !append_length in H. simpl in H. lia.
  - rewrite !append_cons in H. injection H as -> H. f_equal. by apply IH.
Qed.

(** Two uploads of one file name get the same stored name only at the same
    clock reading. *)
Lemma storage_filename_clock (now1 now2 : Z) (original : string) :
  storage_filename now1 original = storage_filename now2 original -> now1 = now2.
Proof.
  unfold storage_filename. intros H. apply append_cancel_r in H.
  by apply (inj pretty) in H.
Qed.

(** X18: a Create is answered 409 only when some stored row already has
    the path the upload has just given to the document. *)
Lemma create_conflict_same_path (env : Env) (req : Request) (w : World) (msg : string) :
  fails_with (post_materials env req w) 409 msg ->
  exists uploaded files pdfFile r,
    upload req (fs w) = (inr uploaded, files)
    /\ first_file "pdf" uploaded = Some pdfFile
    /\ r ∈ rows (db w) /\ pdf_path r = path pdfFile.
Proof.
  unfold fails_with, post_materials.
  destruct (upload req (fs w)) as [[e|uploaded] files]; simpl; [done|].
  destruct (required (body_name req)) as [n|]; [|done].
  destruct (required (body_desc req)) as [d|]; [|done].
  destruct (required (body_category req)) as [c|]; [|done].
  destruct (form req) as [ps|]; [|done].
  destruct (first_file "pdf" uploaded) as [pdfFile|] eqn:Hpdf; [|done].
  unfold checkDuplicateMaterial, db_get, db_insert.
  destruct (get_err env); [done|].
  destruct (List.find _ (rows (db w))) as [r|] eqn:Hfind.
  - intros _. apply find_elem_of in Hfind as [Hin Hsel].
    apply (duplicate_where_selected n d c (path pdfFile)) in Hsel
      as (_ & _ & _ & Hpath & _).
    by exists uploaded, files, pdfFile, r.
  - by destruct (run_err env).
Qed.

(** The upload of a form whose only part is an acceptable document. *)
Lemma upload_single_document (req : Request) (p : Part) (files : gmap string string) :
  parts req = [p] -> part_field p = "pdf" -> part_filename p <> "" ->
  part_mimetype p = "application/pdf" ->
  upload req files
  = (inr [mkFile "pdf" (part_filename p) "application/pdf"
            (storage_destination "pdf" +:+ "/"
             +:+ storage_filename (part_now p) (part_filename p))],
     <[storage_destination "pdf" +:+ "/"
       +:+ storage_filename (part_now p) (part_filename p) := part_content p]> files).
Proof.
  intros Hparts Hfield Hname Hmime. unfold upload. rewrite Hparts. simpl.
  rewrite bool_decide_eq_false_2 by done.
  rewrite Hfield, Hmime. reflexivity.
Qed.

(** X17: posting one form twice: when the two uploads of the document
    fall on different clock readings and the table held no row with the
    second upload's path, the second Create is accepted like the first and
    adds a row. *)
Theorem create_repeated_at_another_time (env : Env) (req : Request) (p : Part)
    (w : World) (now1 now2 : Z) :
  get_err env = None -> run_err env = None ->
  parts req = [p] -> part_field p = "pdf" -> part_filename p <> "" ->
  part_mimetype p = "application/pdf" ->
  now2 <> now1 ->
  (forall r, r ∈ rows (db w) ->
     pdf_path r <> storage_destination "pdf" +:+ "/"
                   +:+ storage_filename now2 (part_filename p)) ->
  status <$> response (post_materials env (resend now1 req) w) = Some 201 ->
  status <$> response (post_materials env (resend now2 req)
                         (world (post_materials env (resend now1 req) w)))
  = Some 201
  /\ length (rows (db (world (post_materials env (resend now2 req)
                                (world (post_materials env (resend now1 req) w))))))
     = S (length (rows (db (world (post_materials env (resend now1 req) w))))).
Proof.
  intros Hget Hrun Hparts Hfield Hname Hmime Hclock Hfresh Hfirst.
  set (path1 := storage_destination "pdf" +:+ "/"
                +:+ storage_filename now1 (part_filename p)).
  set (path2 := storage_destination "pdf" +:+ "/"
                +:+ storage_filename now2 (part_filename p)) in *.
  assert (path2 <> path1) as Hpaths.
  { unfold path1, path2. intros E.
    apply (inj (String.app _)) in E. apply (inj (String.app _)) in E.
    by apply storage_filename_clock in E. }
  assert (forall now, form (resend now req) = Some [at_clock now p]) as Hresend.
  { intros now. unfold parts in Hparts. simpl.
    destruct (form req); simpl in Hparts; by simplify_eq. }
  assert (forall now files,
            upload (resend now req) files
            = (inr [mkFile "pdf" (part_filename p) "application/pdf"
                      (storage_destination "pdf" +:+ "/"
                       +:+ storage_filename now (part_filename p))],
               <[storage_destination "pdf" +:+ "/"
                 +:+ storage_filename now (part_filename p) := part_content p]> files))
    as Hupload.
  { intros now files.
    by rewrite (upload_single_document (resend now req) (at_clock now p));
      unfold parts; rewrite ?Hresend. }
  destruct (required (body_name req)) as [n|] eqn:Hn;
    [|revert Hfirst; unfold post_materials; rewrite Hupload; simpl; by rewrite Hn].
  destruct (required (body_desc req)) as [d|] eqn:Hd;
    [|revert Hfirst; unfold post_materials; rewrite Hupload; simpl; by rewrite Hn, Hd].
  destruct (required (body_category req)) as [c|] eqn:Hc;
    [|revert Hfirst; unfold post_materials; rewrite Hupload; simpl;
      by rewrite Hn, Hd, Hc].
  (* the first Create appended one row with [path1] *)
  assert (exists lastID,
            world (post_materials env (resend now1 req) w)
            = mkWorld (mkDB (rows (db w) ++ [mkRow lastID n d c path1 None]) lastID)
                (<[path1 := part_content p]> (fs w))) as [lastID Hw1].
  { revert Hfirst. unfold post_materials. rewrite Hupload, Hresend. simpl.
    rewrite Hn, Hd, Hc. simpl. fold path1.
    unfold checkDuplicateMaterial, db_get, db_insert. rewrite Hget, Hrun.
    destruct (List.find _ (rows (db w))); simpl; [done|]. eauto. }
  rewrite Hw1. unfold post_materials. rewrite Hupload, Hresend. simpl.
  rewrite Hn, Hd, Hc. simpl. fold path2.
  unfold checkDuplicateMaterial, db_get, db_insert. rewrite Hget, Hrun. simpl.
  destruct (List.find _ _) as [r|] eqn:Hfind; simpl.
  - apply find_elem_of in Hfind as [Hin Hsel].
    apply (duplicate_where_selected n d c path2 None) in Hsel as (_ & _ & _ & Hp & _).
    apply elem_of_app in Hin as [Hin| ->%list_elem_of_singleton].
    + by destruct (Hfresh r Hin).
    + simpl in Hp. by destruct Hpaths.
  - split; [done|]. rewrite !length_app. simpl. lia.
Qed.

(** * Further properties *)

(** ** Stored names *)

Lemma any_char_append (P : ascii -> bool) (s t : string) :
  any_char P (s +:+ t) = any_char P s || any_char P t.
Proof.
  induction s as [|a s IH]; [done|].
  rewrite append_cons. simpl. by rewrite IH, orb_assoc.
Qed.

Lemma any_char_pretty (P : ascii -> bool) (z : Z) :
  (forall k, P (pretty_N_char k) = false) -> P "-"%char = false ->
  any_char P (pretty z) = false.
Proof.
  intros Hdigit Hdash.
  assert (forall (x : N) s, any_char P s = false -> any_char P (pretty_N_go x s) = false)
    as Hgo.
  { intros x. induction (N.lt_wf_0 x) as [x _ IH]. intros s Hs.
    destruct (decide (x = 0)%N) as [->|Hx]; [done|].
    rewrite pretty_N_go_step by lia. apply IH; [apply N.div_lt; lia|].
    simpl. by rewrite Hs, Hdigit. }
  assert (forall (n : N), any_char P (pretty n) = false) as HN.
  { intros n. unfold pretty, pretty_N. case_decide; [|by apply Hgo].
    simpl. rewrite orb_false_r. apply (Hdigit 0%N). }
  unfold pretty, pretty_Z. destruct z; [|apply HN|].
  - simpl. rewrite orb_false_r. apply (Hdigit 0%N).
  - rewrite any_char_append. apply orb_false_iff. split; [|apply HN].
    simpl. by rewrite Hdash.
Qed.

Lemma is_space_digit (k : N) : is_space (pretty_N_char k) = false.
Proof. unfold pretty_N_char. by repeat case_match. Qed.

Lemma any_space_replace_spaces (s : string) :
  any_char is_space (replace_spaces s) = false.
Proof.
  induction s as [|a s IH]; simpl; [done|]. rewrite IH, orb_false_r.
  by destruct (is_space a) eqn:E.
Qed.

(** X3: the name the storage engine gives a file contains no whitespace
    character, and contains a slash exactly when the original name does. *)
Theorem stored_name_characters (now : Z) (original : string) :
  any_char is_space (storage_filename now original) = false
  /\ has_slash (storage_filename now original) = has_slash original.
Proof.
  unfold storage_filename. split.
  - rewrite !any_char_append, any_space_replace_spaces.
    rewrite (any_char_pretty is_space now is_space_digit eq_refl). done.
  - by rewrite !has_slash_append, has_slash_pretty, has_slash_replace_spaces.
Qed.

(** ** What an upload accepts *)

Lemma upload_limits_lookup (f : string) :
  default 0%nat (upload_limits !! f)
  = if bool_decide (f ∈ ["pdf"; "image"]) then 1%nat else 0%nat.
Proof.
  unfold upload_limits.
  destruct (decide (f = "pdf")) as [->|Hpdf]; [done|].
  destruct (decide (f = "image")) as [->|Himage]; [done|].
  rewrite lookup_insert_ne, lookup_singleton_ne by done. simpl.
  rewrite bool_decide_eq_false_2; [done|].
  rewrite !elem_of_cons, elem_of_nil. tauto.
Qed.

Lemma upload_parts_accepted (ps : list Part) :
  forall left done files uploaded files',
    upload_parts ps left done files = (inr uploaded, files') ->
    exists new,
      uploaded = (done ++ new)%list
      /\ (forall file, file ∈ new ->
            fileFilter (fieldname file) (mimetype file) = None)
      /\ forall f,
           (length (List.filter (fun x => bool_decide (fieldname x = f)) new)
            <= default 0 (left !! f))%nat.
Proof.
  induction ps as [|p ps IH]; simpl; intros left done files uploaded files' Hup.
  - exists []. simplify_eq. rewrite app_nil_r. repeat split; [|simpl; lia].
    intros file Hfile. by apply elem_of_nil in Hfile.
  - case_bool_decide as Hname; [by eapply IH|].
    destruct (default 0%nat (left !! part_field p)) as [|n] eqn:Hleft; [done|].
    destruct (fileFilter _ _) eqn:Hfilter; [done|].
    apply IH in Hup as (new & -> & Hacc & Hcount).
    eexists (_ :: new). split; [by rewrite <- app_assoc|]. split.
    + intros file [->|Hfile]%elem_of_cons; [done|by apply Hacc].
    + intros f. specialize (Hcount f). simpl. case_bool_decide as Hf.
      * simpl in Hf. subst f. rewrite lookup_insert_eq in Hcount.
        rewrite Hleft. simpl in *. lia.
      * simpl in Hf. by rewrite lookup_insert_ne in Hcount.
Qed.

(** X1: when an upload succeeds, [req.files] holds at most one file for
    each field, and every file in it is a [pdf] of type application/pdf or
    an [image] of type image/jpeg, image/png or image/jpg. *)
Theorem upload_takes_one_file_per_field (req : Request) (files : gmap string string)
    (uploaded : list File) (files' : gmap string string) :
  upload req files = (inr uploaded, files') ->
  (forall f,
     (length (List.filter (fun x => bool_decide (fieldname x = f)) uploaded) <= 1)%nat)
  /\ forall file, file ∈ uploaded ->
       (fieldname file = "pdf" /\ mimetype file = "application/pdf")
       \/ (fieldname file = "image"
           /\ mimetype file ∈ ["image/jpeg"; "image/png"; "image/jpg"]).
Proof.
  intros Hup. apply upload_parts_accepted in Hup as (new & -> & Hacc & Hcount).
  simpl. split.
  - intros f. specialize (Hcount f). rewrite upload_limits_lookup in Hcount.
    destruct (bool_decide _); lia.
  - intros file Hfile.
    assert (fieldname file ∈ ["pdf"; "image"]) as Hfield.
    { specialize (Hcount (fieldname file)). rewrite upload_limits_lookup in Hcount.
      case_bool_decide; [done|].
      assert (file ∈ List.filter (fun x => bool_decide (fieldname x = fieldname file)) new)
        as Hin by (apply filter_elem_of; split; [done|by apply bool_decide_eq_true]).
      destruct (List.filter _ new); [by apply elem_of_nil in Hin|simpl in Hcount; lia]. }
    specialize (Hacc file Hfile). unfold fileFilter in Hacc.
    apply elem_of_cons in Hfield as [Hpdf|[Himage|Hnone%elem_of_nil]%elem_of_cons];
      [left|right|done].
    + split; [done|]. rewrite Hpdf in Hacc.
      repeat case_bool_decide; simplify_eq; done.
    + split; [done|]. rewrite Himage in Hacc.
      repeat case_bool_decide; simplify_eq; done.
Qed.

Lemma append_assoc (a b c : string) : (a +:+ b) +:+ c = a +:+ (b +:+ c).
Proof. induction a as [|x a IH]; [done|]. by rewrite !append_cons, IH. Qed.

(** The two partitions never share a path. *)
Lemma partition_paths_differ (f g nm1 nm2 : string) :
  f ∈ ["pdf"; "image"] -> g ∈ ["pdf"; "image"] -> f <> g ->
  storage_destination f +:+ "/" +:+ nm1 <> storage_destination g +:+ "/" +:+ nm2.
Proof.
  intros Hf Hg Hne E. unfold storage_destination in E.
  rewrite !append_assoc in E. apply (inj (String.app _)) in E.
  rewrite !elem_of_cons, elem_of_nil in Hf, Hg.
  destruct Hf as [->|[->|[]]], Hg as [->|[->|[]]]; try done;
    vm_compute in E; discriminate.
Qed.

Lemma upload_limits_small (h : string) :
  (default 0 (upload_limits !! h) <= 1)%nat
  /\ ((0 < default 0 (upload_limits !! h))%nat -> h ∈ ["pdf"; "image"]).
Proof. rewrite upload_limits_lookup. case_bool_decide; split; (done || lia). Qed.

Lemma upload_parts_on_disk (ps : list Part) :
  forall left (dc : list (File * string)) files uploaded files',
    upload_parts ps left (dc.*1) files = (inr uploaded, files') ->
    (forall h, (default 0 (left !! h) <= 1)%nat
               /\ ((0 < default 0 (left !! h))%nat -> h ∈ ["pdf"; "image"])) ->
    (forall fc, fc ∈ dc ->
       fieldname fc.1 ∈ ["pdf"; "image"]
       /\ default 0%nat (left !! fieldname fc.1) = 0%nat
       /\ (exists nm, path fc.1 = storage_destination (fieldname fc.1) +:+ "/" +:+ nm)
       /\ files !! path fc.1 = Some fc.2) ->
    exists uc : list (File * string),
      uploaded = uc.*1
      /\ forall fc, fc ∈ uc ->
           files' !! path fc.1 = Some fc.2
           /\ (fc ∈ dc
               \/ exists p, p ∈ ps /\ part_filename p <> ""
                    /\ fc = (stored_file p, part_content p)).
Proof.
  induction ps as [|p ps IH]; simpl; intros left dc files uploaded files' Hup Hleft Hdc.
  - exists dc. simplify_eq. split; [done|]. intros fc Hfc.
    destruct (Hdc fc Hfc) as (_ & _ & _ & Hdisk). auto.
  - case_bool_decide as Hname.
    { destruct (IH _ _ _ _ _ Hup Hleft Hdc) as (uc & -> & Huc).
      exists uc. split; [done|]. intros fc Hfc.
      destruct (Huc fc Hfc) as [Hdisk [?|(q & Hq & ?)]]; split; auto.
      right. exists q. split; [by apply list_elem_of_further|done]. }
    destruct (default 0%nat (left !! part_field p)) as [|n] eqn:Hlimit; [done|].
    destruct (fileFilter _ _); [done|].
    destruct (Hleft (part_field p)) as [Hsmall Hfield]. rewrite Hlimit in Hsmall, Hfield.
    assert (n = 0%nat) as -> by lia.
    assert (part_field p ∈ ["pdf"; "image"]) as Hpart by (apply Hfield; lia).
    change (upload_parts ps ?l (dc.*1 ++ _)%list ?m)
      with (upload_parts ps l (dc.*1 ++ [(stored_file p, part_content p)].*1)%list m)
      in Hup.
    rewrite <- fmap_app in Hup.
    apply IH in Hup as (uc & -> & Huc).
    + exists uc. split; [done|]. intros fc Hfc.
      destruct (Huc fc Hfc) as [Hdisk [Hold|(q & Hq & ?)]]; split; auto.
      * apply elem_of_app in Hold as [?| ->%list_elem_of_singleton]; [by left|].
        right. exists p. split; [apply list_elem_of_here|done].
      * right. exists q. split; [by apply list_elem_of_further|done].
    + intros h. destruct (decide (h = part_field p)) as [->|Hne].
      * rewrite lookup_insert_eq. simpl. split; [lia|lia].
      * rewrite lookup_insert_ne by done. apply Hleft.
    + intros fc [Hfc| ->%list_elem_of_singleton]%elem_of_app.
      * destruct (Hdc fc Hfc) as (Hf & Hzero & [nm Hpath] & Hdisk).
        assert (fieldname fc.1 <> part_field p) as Hne by (intros E; rewrite E in Hzero; lia).
        split; [done|]. split; [by rewrite lookup_insert_ne|]. split; [by exists nm|].
        rewrite lookup_insert_ne; [done|]. rewrite Hpath.
        apply not_eq_sym. by apply partition_paths_differ.
      * simpl. split; [done|]. split; [by rewrite lookup_insert_eq|].
        split; [by eexists|]. by rewrite lookup_insert_eq.
Qed.

(** ** Create: what a rejected form leaves behind *)

(** Sent without a multipart form and with its three texts, a Create gets
    past the validation of the texts and throws on [req.files]: Express
    answers 500 with its error page, and nothing has changed. *)
Lemma create_not_multipart_throws (env : Env) (req : Request) (w : World) :
  form req = None -> incomplete req = false ->
  post_materials env req w = express_error w.
Proof.
  unfold incomplete, post_materials, upload, parts. intros -> Htexts. simpl.
  destruct (required (body_name req)); [|done].
  destruct (required (body_desc req)); [|done].
  destruct (required (body_category req)); [|done].
  by destruct w.
Qed.

(** An Update sent without a multipart form gets past the validation and
    the lookup in the same way and throws inside the callback of [db.get],
    where nothing catches it: no response is sent and nothing has changed. *)
Lemma update_not_multipart_uncaught (env : Env) (req : Request) (w : World)
    (existing : Row) :
  form req = None -> incomplete req = false ->
  lookup env req w = inr (Some existing) ->
  put_material env req w = uncaught w.
Proof.
  unfold incomplete, lookup, put_material, upload, parts. intros -> Htexts ->. simpl.
  destruct (required (body_name req)); [|done].
  destruct (required (body_desc req)); [|done].
  destruct (required (body_category req)); [|done].
  by destruct w.
Qed.

(** C3 (as amended): a Create whose name, description or category is
    missing or empty, or whose multipart form carries no document, is
    answered 400 and leaves the table as it was; the files are left exactly
    as the upload step left them, and when the upload completed every file
    it stored is still on disk with its content. *)
Theorem invalid_create_rejected (env : Env) (req : Request) (w : World) :
  invalid_create req = true ->
  form req <> None \/ incomplete req = true ->
  (exists msg, fails_with (post_materials env req w) 400 msg)
  /\ db (world (post_materials env req w)) = db w
  /\ fs (world (post_materials env req w)) = (upload req (fs w)).2
  /\ forall uploaded files,
       upload req (fs w) = (inr uploaded, files) ->
       forall file, file ∈ uploaded ->
         exists p, p ∈ parts req /\ file = stored_file p
           /\ fs (world (post_materials env req w)) !! path file
              = Some (part_content p).
Proof.
  intros Hbad Hcase.
  assert ((exists msg, fails_with (post_materials env req w) 400 msg)
          /\ db (world (post_materials env req w)) = db w
          /\ fs (world (post_materials env req w)) = (upload req (fs w)).2)
    as (H400 & Hdb & Hfs).
  { revert Hbad Hcase. unfold invalid_create, incomplete, post_materials, fails_with.
    intros Hbad Hcase.
    destruct (upload req (fs w)) as [[msg|uploaded] files] eqn:Hup; simpl; [eauto|].
    destruct (required (body_name req)); [|eauto].
    destruct (required (body_desc req)); [|eauto].
    destruct (required (body_category req)); [|eauto].
    destruct (form req) as [ps|] eqn:Hform; [|by destruct Hcase].
    apply negb_true_iff in Hbad.
    rewrite (upload_first_file_none _ _ _ _ _ Hbad Hup). simpl. eauto. }
  do 3 (split; [done|]).
  intros uploaded files Hup file Hfile. rewrite Hfs, Hup. simpl. unfold upload in Hup.
  destruct (upload_parts_on_disk (parts req) upload_limits [] (fs w) uploaded files
              Hup upload_limits_small) as (uc & -> & Huc).
  { intros fc Hfc. by apply elem_of_nil in Hfc. }
  apply list_elem_of_fmap in Hfile as (fc & -> & Hfc).
  destruct (Huc fc Hfc) as [Hdisk [Hnil%elem_of_nil|(p & Hp & Hname & ->)]]; [done|].
  by exists p.
Qed.

(** X2: after a successful upload every file in [req.files] comes from a
    part of the form and is on disk, in the directory of its field and
    under its clock-prefixed name, with the content of that part. *)
Theorem upload_stores_every_file (req : Request) (files : gmap string string)
    (uploaded : list File) (files' : gmap string string) :
  upload req files = (inr uploaded, files') ->
  forall file, file ∈ uploaded ->
    exists p, p ∈ parts req /\ part_filename p <> ""
      /\ file = stored_file p
      /\ files' !! path file = Some (part_content p).
Proof.
  intros Hup file Hfile. unfold upload in Hup.
  destruct (upload_parts_on_disk (parts req) upload_limits [] files uploaded files'
              Hup upload_limits_small) as (uc & -> & Huc).
  { intros fc Hfc. by apply elem_of_nil in Hfc. }
  apply list_elem_of_fmap in Hfile as (fc & -> & Hfc).
  destruct (Huc fc Hfc) as [Hdisk [Hnil%elem_of_nil|(p & Hp & Hname & ->)]]; [done|].
  by exists p.
Qed.

(** ** What an upload refuses *)

Lemma upload_parts_refused (ps : list Part) :
  forall left stored files,
    (forall h, (0 < default 0 (left !! h))%nat -> h ∈ ["pdf"; "image"]) ->
    existsb refused ps = true ->
    exists msg, (upload_parts ps left stored files).1 = inl msg.
Proof.
  induction ps as [|p ps IH]; simpl; intros left stored files Hleft Hbad; [done|].
  unfold refused in Hbad at 1.
  case_bool_decide as Hname; [simpl in Hbad; by apply IH|].
  destruct (default 0%nat (left !! part_field p)) as [|n] eqn:Hlimit; [by eexists|].
  destruct (fileFilter _ _); [by eexists|].
  rewrite bool_decide_eq_true_2 in Hbad by (apply Hleft; lia). simpl in Hbad.
  apply IH; [|done].
  intros h. destruct (decide (h = part_field p)) as [->|Hne].
  - intros _. apply Hleft. lia.
  - rewrite lookup_insert_ne by done. apply Hleft.
Qed.

(** X4: a form with a file part in a field other than [pdf] and [image],
    or with a file the filter refuses, is answered 400 "Upload Error" by
    Create and by Update, and the table stays as it was. *)
Theorem refused_part_rejects_form (env : Env) (req : Request) (w : World) :
  existsb refused (parts req) = true ->
  exists msg,
    fails_with (post_materials env req w) 400 ("Upload Error: " +:+ msg)
    /\ fails_with (put_material env req w) 400 ("Upload Error: " +:+ msg)
    /\ db (world (post_materials env req w)) = db w
    /\ db (world (put_material env req w)) = db w.
Proof.
  intros Hbad.
  destruct (upload_parts_refused (parts req) upload_limits [] (fs w)
              (fun h => proj2 (upload_limits_small h)) Hbad) as [msg Hmsg].
  exists msg. unfold fails_with, post_materials, put_material, upload.
  destruct (upload_parts _ _ _ _) as [[e|uploaded] files]; simpl in Hmsg; [|done].
  by simplify_eq.
Qed.

(** ** Create: what a 201 leaves behind *)

Lemma first_file_on_disk (req : Request) (files files' : gmap string string)
    (uploaded : list File) (f : string) (file : File) :
  upload req files = (inr uploaded, files') ->
  first_file f uploaded = Some file ->
  exists p, p ∈ parts req /\ part_field p = f /\ part_filename p <> ""
    /\ file = stored_file p /\ files' !! path file = Some (part_content p).
Proof.
  intros Hup Hfirst. apply find_elem_of in Hfirst as [Hin Hf].
  apply bool_decide_eq_true in Hf. unfold upload in Hup.
  destruct (upload_parts_on_disk (parts req) upload_limits [] files uploaded files'
              Hup upload_limits_small) as (uc & -> & Huc).
  { intros fc Hfc. by apply elem_of_nil in Hfc. }
  apply list_elem_of_fmap in Hin as (fc & -> & Hfc).
  destruct (Huc fc Hfc) as [Hdisk [Hnil%elem_of_nil|(p & Hp & Hname & ->)]]; [done|].
  by exists p.
Qed.

(** The shape of a Create that is answered 201. *)
Lemma post_materials_created (env : Env) (req : Request) (w : World) (b : json) :
  response (post_materials env req w) = Some (mkResponse 201 b) ->
  exists uploaded files n d c pdfFile,
    parsed req w uploaded files n d c
    /\ first_file "pdf" uploaded = Some pdfFile
    /\ b = material_body "Material added successfully!"
             (JNum (largest_rowid (db w) + 1)) n d c req (path pdfFile)
             (path <$> first_file "image" uploaded)
    /\ world (post_materials env req w)
       = mkWorld
           (mkDB (rows (db w)
                  ++ [mkRow (largest_rowid (db w) + 1) n d c (path pdfFile)
                        (path <$> first_file "image" uploaded)])%list
              (largest_rowid (db w) + 1))
           files.
Proof.
  unfold post_materials, parsed.
  destruct (upload req (fs w)) as [[msg|uploaded] files]; simpl; [done|].
  destruct (required (body_name req)) as [n|]; [|done].
  destruct (required (body_desc req)) as [d|]; [|done].
  destruct (required (body_category req)) as [c|]; [|done].
  destruct (form req) as [ps|]; [|done].
  destruct (first_file "pdf" uploaded) as [pdfFile|] eqn:Hpdf; [|done].
  destruct (checkDuplicateMaterial _ _ _ _ _ _ _) as [e|[|]]; [done|done|].
  unfold db_insert. destruct (run_err env); [done|].
  simpl. intros Hb. simplify_eq.
  exists uploaded, files, n, d, c, pdfFile. by rewrite Hpdf.
Qed.

(** Create never removes a file: the disk is as the upload left it. *)
Lemma post_materials_disk (env : Env) (req : Request) (w : World) :
  fs (world (post_materials env req w)) = (upload req (fs w)).2.
Proof.
  unfold post_materials.
  destruct (upload req (fs w)) as [[msg|uploaded] files]; simpl; [done|].
  destruct (required (body_name req)) as [n|]; [|done].
  destruct (required (body_desc req)) as [d|]; [|done].
  destruct (required (body_category req)) as [c|]; [|done].
  destruct (form req) as [ps|]; [|done].
  destruct (first_file "pdf" uploaded) as [pdfFile|]; [|done].
  destruct (checkDuplicateMaterial _ _ _ _ _ _ _) as [e|[|]]; [done|done|].
  by destruct (db_insert _ _ _ _ _ _ _) as [e|[lastID t]].
Qed.

(** X5: a Create answered 201 appends one row whose document path holds,
    on disk, the content of the form's [pdf] part; the row's image path,
    if it has one, holds the content of the [image] part, and a form
    without image gives a row without image path and a null [image_link]. *)
Theorem created_material_is_stored (env : Env) (req : Request) (w : World) (b : json) :
  response (post_materials env req w) = Some (mkResponse 201 b) ->
  exists row p,
    rows (db (world (post_materials env req w))) = (rows (db w) ++ [row])%list
    /\ p ∈ parts req /\ part_field p = "pdf"
    /\ fs (world (post_materials env req w)) !! pdf_path row = Some (part_content p)
    /\ (forall q, image_path row = Some q ->
          exists p', p' ∈ parts req /\ part_field p' = "image"
            /\ fs (world (post_materials env req w)) !! q = Some (part_content p'))
    /\ (has_part "image" req = false ->
          image_path row = None /\ material_field "image_link" b = Some JNull).
Proof.
  intros Hb.
  destruct (post_materials_created env req w b Hb)
    as (uploaded & files & n & d & c & pdfFile & (Hup & _) & Hpdf & -> & Hw).
  rewrite Hw. simpl.
  destruct (first_file_on_disk _ _ _ _ _ _ Hup Hpdf) as (p & Hp & Hfield & _ & _ & Hdisk).
  eexists _, p. split; [reflexivity|]. simpl. do 3 (split; [done|]). split.
  - intros q Hq. destruct (first_file "image" uploaded) as [imageFile|] eqn:Himage;
      [|done].
    simpl in Hq. simplify_eq.
    destruct (first_file_on_disk _ _ _ _ _ _ Hup Himage)
      as (p' & Hp' & Hfield' & _ & _ & Hdisk').
    by exists p'.
  - intros Hnone. by rewrite (upload_first_file_none _ _ _ _ _ Hnone Hup).
Qed.

(** X6: whatever a Create answers, the files its upload stored are still
    on disk afterwards with their content, and unless the answer is 201
    the table is as it was: a Create answered 400, 409 or 500 after a
    successful upload leaves its files behind without a row. *)
Theorem create_keeps_uploaded_files (env : Env) (req : Request) (w : World)
    (uploaded : list File) (files : gmap string string) :
  upload req (fs w) = (inr uploaded, files) ->
  (forall file, file ∈ uploaded ->
     exists p, p ∈ parts req /\ file = stored_file p
       /\ fs (world (post_materials env req w)) !! path file = Some (part_content p))
  /\ (status <$> response (post_materials env req w) <> Some 201 ->
      db (world (post_materials env req w)) = db w).
Proof.
  intros Hup. split.
  - intros file Hfile. rewrite post_materials_disk, Hup. simpl.
    unfold upload in Hup.
    destruct (upload_parts_on_disk (parts req) upload_limits [] (fs w) uploaded files
                Hup upload_limits_small) as (uc & -> & Huc).
    { intros fc Hfc. by apply elem_of_nil in Hfc. }
    apply list_elem_of_fmap in Hfile as (fc & -> & Hfc).
    destruct (Huc fc Hfc) as [Hdisk [Hnil%elem_of_nil|(p & Hp & Hname & ->)]]; [done|].
    by exists p.
  - unfold post_materials. rewrite Hup. simpl.
    destruct (required (body_name req)) as [n|]; [|done].
    destruct (required (body_desc req)) as [d|]; [|done].
    destruct (required (body_category req)) as [c|]; [|done].
    destruct (form req) as [ps|]; [|done].
    destruct (first_file "pdf" uploaded) as [pdfFile|]; [|done].
    destruct (checkDuplicateMaterial _ _ _ _ _ _ _) as [e|[|]]; [done|done|].
    by destruct (db_insert _ _ _ _ _ _ _) as [e|[lastID t]].
Qed.

(** X7: after a Create answered 201, a List that succeeds shows what it
    showed before followed by one more material, whose id, name,
    description, category and links are those of the Create's answer. *)
Theorem created_material_is_listed (env env' : Env) (req : Request) (w : World)
    (b : json) :
  response (post_materials env req w) = Some (mkResponse 201 b) ->
  all_err env' = None ->
  exists items item,
    response (get_materials env' req w) = Some (mkResponse 200 (JArr items))
    /\ response (get_materials env' req (world (post_materials env req w)))
       = Some (mkResponse 200 (JArr (items ++ [item])%list))
    /\ forall k, k ∈ ["id"; "name"; "desc"; "category"; "pdf_link"; "image_link"] ->
         field k item = material_field k b.
Proof.
  intros Hb Hall.
  destruct (post_materials_created env req w b Hb)
    as (uploaded & files & n & d & c & pdfFile & _ & _ & -> & Hw).
  rewrite Hw. unfold get_materials, db_all. rewrite Hall. simpl.
  eexists _, _. split; [reflexivity|]. rewrite fmap_app. split; [reflexivity|].
  intros k Hk. rewrite !elem_of_cons, elem_of_nil in Hk.
  destruct Hk as [->|[->|[->|[->|[->|[->|[]]]]]]]; reflexivity.
Qed.

(** ** The table across requests *)

(** X8: no route changes the table unless it reports success: when the
    table after a request differs from the table before, the request was
    not a List and was answered 201 (Create) or 200 (Update, Delete). *)
Theorem table_changes_only_on_success (c : Call) (env : Env) (req : Request) (w : World) :
  db (world (serve c env req w)) <> db w ->
  c <> List /\ status <$> response (serve c env req w) = Some (success_code c).
Proof.
  intros Hchanged. destruct c as [| |[|]]; simpl in *.
  - split; [done|]. revert Hchanged. unfold post_materials.
    destruct (upload req (fs w)) as [[msg|uploaded] files]; simpl; [done|].
    destruct (required (body_name req)) as [n|]; [|done].
    destruct (required (body_desc req)) as [d|]; [|done].
    destruct (required (body_category req)) as [c|]; [|done].
    destruct (form req) as [ps|]; [|done].
    destruct (first_file "pdf" uploaded) as [pdfFile|]; [|done].
    destruct (checkDuplicateMaterial _ _ _ _ _ _ _) as [e|[|]]; [done|done|].
    by destruct (db_insert _ _ _ _ _ _ _) as [e|[lastID t]].
  - exfalso. apply Hchanged. unfold get_materials. by destruct (db_all env (db w)).
  - split; [done|]. revert Hchanged. unfold delete_material.
    destruct (db_get env _ (db w)) as [e|[row|]]; [done| |done].
    destruct (unlink_if_exists _ _ _); [|done].
    destruct (unlink_image_if_exists _ _ _); [|done].
    by destruct (db_delete _ _ _).
  - split; [done|]. revert Hchanged. unfold put_material.
    destruct (upload req (fs w)) as [[msg|uploaded] files]; simpl; [done|].
    destruct (required (body_name req)) as [n|]; [|done].
    destruct (required (body_desc req)) as [d|]; [|done].
    destruct (required (body_category req)) as [c|]; [|done].
    destruct (db_get env _ (db w)) as [e|[existing|]]; [done| |done].
    destruct (form req) as [ps|]; [|done].
    destruct (match first_file "pdf" uploaded with
              | Some f => (unlink_if_exists env (pdf_path existing) files, path f)
              | None => (Some files, pdf_path existing)
              end) as [[files1|] newPdfPath]; [|done].
    destruct (match first_file "image" uploaded with
              | Some f => (unlink_image_if_exists env (image_path existing) files1,
                           Some (path f))
              | None => (Some files1, image_path existing)
              end) as [[files2|] newImagePath]; [|done].
    by destruct (db_update _ _ _ _ _ _ _ _).
Qed.

Lemma seq_le_largest_rowid (t : DB) : seq t <= largest_rowid t.
Proof. unfold largest_rowid. induction (rows t) as [|a l IH]; simpl; lia. Qed.

(** The AUTOINCREMENT sequence never goes down. *)
Lemma serve_seq_monotone (c : Call) (env : Env) (req : Request) (w : World) :
  seq (db w) <= seq (db (world (serve c env req w))).
Proof.
  destruct c as [| |[|]]; simpl.
  - unfold post_materials.
    destruct (upload req (fs w)) as [[msg|uploaded] files]; simpl; [lia|].
    destruct (required (body_name req)) as [n|]; [|simpl; lia].
    destruct (required (body_desc req)) as [d|]; [|simpl; lia].
    destruct (required (body_category req)) as [c|]; [|simpl; lia].
    destruct (form req) as [ps|]; [|simpl; lia].
    destruct (first_file "pdf" uploaded) as [pdfFile|]; [|simpl; lia].
    destruct (checkDuplicateMaterial _ _ _ _ _ _ _) as [e|[|]]; [simpl; lia..|].
    unfold db_insert. destruct (run_err env); simpl; [lia|].
    pose proof (seq_le_largest_rowid (db w)). lia.
  - unfold get_materials. destruct (db_all env (db w)); simpl; lia.
  - unfold delete_material.
    destruct (db_get env _ (db w)) as [e|[row|]]; [simpl; lia| |simpl; lia].
    destruct (unlink_if_exists _ _ _); [|simpl; lia].
    destruct (unlink_image_if_exists _ _ _); [|simpl; lia].
    unfold db_delete. destruct (run_err env); simpl; lia.
  - unfold put_material.
    destruct (upload req (fs w)) as [[msg|uploaded] files]; simpl; [lia|].
    destruct (required (body_name req)) as [n|]; [|simpl; lia].
    destruct (required (body_desc req)) as [d|]; [|simpl; lia].
    destruct (required (body_category req)) as [c|]; [|simpl; lia].
    destruct (db_get env _ (db w)) as [e|[existing|]]; [simpl; lia| |simpl; lia].
    destruct (form req) as [ps|]; [|simpl; lia].
    destruct (match first_file "pdf" uploaded with
              | Some f => (unlink_if_exists env (pdf_path existing) files, path f)
              | None => (Some files, pdf_path existing)
              end) as [[files1|] newPdfPath]; [|simpl; lia].
    destruct (match first_file "image" uploaded with
              | Some f => (unlink_image_if_exists env (image_path existing) files1,
                           Some (path f))
              | None => (Some files1, image_path existing)
              end) as [[files2|] newImagePath]; [|simpl; lia].
    unfold db_update. destruct (run_err env); simpl; lia.
Qed.

Lemma serve_all_seq_monotone (calls : list (Call * Env * Request)) (w : World) :
  seq (db w) <= seq (db (serve_all calls w)).
Proof.
  revert w. induction calls as [|[[c env] req] calls IH]; intros w; simpl; [done|].
  pose proof (serve_seq_monotone c env req w). specialize (IH (world (serve c env req w))).
  lia.
Qed.

(** X9: ids are never handed out twice: when a Create is answered 201
    with id [i1] and, after any further requests (deletes included),
    another Create is answered 201 with id [i2], then [i1 < i2]. *)
Theorem created_ids_increase (env1 env2 : Env) (req1 req2 : Request) (w : World)
    (calls : list (Call * Env * Request)) (b1 b2 : json) :
  response (post_materials env1 req1 w) = Some (mkResponse 201 b1) ->
  response (post_materials env2 req2
              (serve_all calls (world (post_materials env1 req1 w))))
  = Some (mkResponse 201 b2) ->
  exists i1 i2,
    material_field "id" b1 = Some (JNum i1)
    /\ material_field "id" b2 = Some (JNum i2)
    /\ i1 < i2.
Proof.
  intros Hb1 Hb2.
  destruct (post_materials_created _ _ _ _ Hb1) as (? & ? & ? & ? & ? & ? & _ & _ & -> & Hw1).
  destruct (post_materials_created _ _ _ _ Hb2) as (? & ? & ? & ? & ? & ? & _ & _ & -> & _).
  eexists _, _. split; [reflexivity|]. split; [reflexivity|].
  pose proof (serve_all_seq_monotone calls (world (post_materials env1 req1 w))) as Hmono.
  pose proof (seq_le_largest_rowid
                (db (serve_all calls (world (post_materials env1 req1 w))))) as Hle.
  rewrite Hw1 in Hmono at 1. simpl in Hmono. lia.
Qed.

(** ** Delete: afterwards *)

(** The shape of a Delete that is answered 200. *)
Lemma delete_material_deleted (env : Env) (req : Request) (w : World) (b : json) :
  response (delete_material env req w) = Some (mkResponse 200 b) ->
  db (world (delete_material env req w))
  = mkDB (List.filter (fun r => negb (selected (id_where (params_id req) r)))
            (rows (db w))) (seq (db w)).
Proof.
  unfold delete_material.
  destruct (db_get env _ (db w)) as [e|[row|]]; [done| |done].
  destruct (unlink_if_exists _ _ _); [|done].
  destruct (unlink_image_if_exists _ _ _); [|done].
  unfold db_delete. by destruct (run_err env).
Qed.

Lemma mutate_same_table_or_200 (k : Mutation) (env : Env) (req : Request) (w : World) :
  db (world (mutate k env req w)) = db w
  \/ status <$> response (mutate k env req w) = Some 200.
Proof.
  destruct k; simpl.
  - unfold delete_material.
    destruct (db_get env _ (db w)) as [e|[row|]]; [by left| |by left].
    destruct (unlink_if_exists _ _ _); [|by left].
    destruct (unlink_image_if_exists _ _ _); [|by left].
    destruct (db_delete _ _ _); [by left|by right].
  - unfold put_material.
    destruct (upload req (fs w)) as [[msg|uploaded] files]; simpl; [by left|].
    destruct (required (body_name req)) as [n|]; [|by left].
    destruct (required (body_desc req)) as [d|]; [|by left].
    destruct (required (body_category req)) as [c|]; [|by left].
    destruct (db_get env _ (db w)) as [e|[existing|]]; [by left| |by left].
    destruct (form req) as [ps|]; [|by left].
    destruct (match first_file "pdf" uploaded with
              | Some f => (unlink_if_exists env (pdf_path existing) files, path f)
              | None => (Some files, pdf_path existing)
              end) as [[files1|] newPdfPath]; [|by left].
    destruct (match first_file "image" uploaded with
              | Some f => (unlink_image_if_exists env (image_path existing) files1,
                           Some (path f))
              | None => (Some files1, image_path existing)
              end) as [[files2|] newImagePath]; [|by left].
    destruct (db_update _ _ _ _ _ _ _ _); [by left|by right].
Qed.

(** A Delete or Update answered 404 has not touched the table. *)
Lemma mutate_404_same_table (k : Mutation) (env : Env) (req : Request) (w : World) :
  fails_with (mutate k env req w) 404 "Material not found." ->
  db (world (mutate k env req w)) = db w.
Proof.
  unfold fails_with. intros H404.
  destruct (mutate_same_table_or_200 k env req w) as [Hsame|Hstatus]; [done|].
  rewrite H404 in Hstatus. by destruct k.
Qed.

(** An Update leaves the table alone or rewrites the selected rows. *)
Lemma put_material_table (env : Env) (req : Request) (w : World) :
  db (world (put_material env req w)) = db w
  \/ exists n d c p i,
       db (world (put_material env req w))
       = mkDB ((fun r => if selected (id_where (params_id req) r)
                         then mkRow (id r) n d c p i else r) <$> rows (db w))
           (seq (db w)).
Proof.
  unfold put_material.
  destruct (upload req (fs w)) as [[msg|uploaded] files]; simpl; [by left|].
  destruct (required (body_name req)) as [n|]; [|by left].
  destruct (required (body_desc req)) as [d|]; [|by left].
  destruct (required (body_category req)) as [c|]; [|by left].
  destruct (db_get env _ (db w)) as [e|[existing|]]; [by left| |by left].
  destruct (form req) as [ps|]; [|by left].
  destruct (match first_file "pdf" uploaded with
            | Some f => (unlink_if_exists env (pdf_path existing) files, path f)
            | None => (Some files, pdf_path existing)
            end) as [[files1|] newPdfPath]; [|by left].
  destruct (match first_file "image" uploaded with
            | Some f => (unlink_image_if_exists env (image_path existing) files1,
                         Some (path f))
            | None => (Some files1, image_path existing)
            end) as [[files2|] newImagePath]; [|by left].
  unfold db_update. destruct (run_err env); [by left|]. right. simpl.
  by exists n, d, c, newPdfPath, newImagePath.
Qed.

Lemma post_materials_table (env : Env) (req : Request) (w : World) :
  db (world (post_materials env req w)) = db w
  \/ exists n d c p i,
       db (world (post_materials env req w))
       = mkDB (rows (db w) ++ [mkRow (largest_rowid (db w) + 1) n d c p i])%list
           (largest_rowid (db w) + 1).
Proof.
  unfold post_materials.
  destruct (upload req (fs w)) as [[msg|uploaded] files]; simpl; [by left|].
  destruct (required (body_name req)) as [n|]; [|by left].
  destruct (required (body_desc req)) as [d|]; [|by left].
  destruct (required (body_category req)) as [c|]; [|by left].
  destruct (form req) as [ps|]; [|by left].
  destruct (first_file "pdf" uploaded) as [pdfFile|]; [|by left].
  destruct (checkDuplicateMaterial _ _ _ _ _ _ _) as [e|[|]]; [by left|by left|].
  unfold db_insert. destruct (run_err env); [by left|]. right. simpl. by eexists _, _, _, _, _.
Qed.

Lemma delete_material_table (env : Env) (req : Request) (w : World) :
  db (world (delete_material env req w)) = db w
  \/ db (world (delete_material env req w))
     = mkDB (List.filter (fun r => negb (selected (id_where (params_id req) r)))
               (rows (db w))) (seq (db w)).
Proof.
  unfold delete_material.
  destruct (db_get env _ (db w)) as [e|[row|]]; [by left| |by left].
  destruct (unlink_if_exists _ _ _); [|by left].
  destruct (unlink_image_if_exists _ _ _); [|by left].
  unfold db_delete. destruct (run_err env); [by left|by right].
Qed.

(** A rowid that is spent stays spent, whatever request is served. *)
Lemma serve_keeps_spent (c : Call) (env : Env) (req : Request) (w : World) (z : Z) :
  spent z (db w) -> spent z (db (world (serve c env req w))).
Proof.
  intros [Hnone Hseq]. destruct c as [| |[|]]; simpl.
  - destruct (post_materials_table env req w) as [->|(n & d & c & p & i & ->)]; [done|].
    pose proof (seq_le_largest_rowid (db w)). split; simpl; [|lia].
    intros r [Hr| ->%list_elem_of_singleton]%elem_of_app; [by apply Hnone|simpl; lia].
  - unfold get_materials. by destruct (db_all env (db w)).
  - destruct (delete_material_table env req w) as [->| ->]; [done|].
    split; simpl; [|done]. intros r [Hr _]%filter_elem_of. by apply Hnone.
  - destruct (put_material_table env req w) as [->|(n & d & c & p & i & ->)]; [done|].
    split; simpl; [|done]. intros r' (r & -> & Hr)%list_elem_of_fmap.
    specialize (Hnone r Hr). by destruct (selected _).
Qed.

Lemma serve_all_keeps_spent (calls : list (Call * Env * Request)) (w : World) (z : Z) :
  spent z (db w) -> spent z (db (serve_all calls w)).
Proof.
  revert w. induction calls as [|[[c env] req] calls IH]; intros w Hspent; simpl; [done|].
  by apply IH, serve_keeps_spent.
Qed.

(** X10: on a well-formed table, once a Delete has been answered 200, any
    later Delete or Update with the same id, after whatever requests were
    served in between, is answered 404 and leaves the table as it is: the
    rowid is never given to another row. *)
Theorem deleted_id_is_unknown (env env' : Env) (req req' : Request) (w : World)
    (b : json) (calls : list (Call * Env * Request)) (k : Mutation) :
  db_wf (db w) = true ->
  response (delete_material env req w) = Some (mkResponse 200 b) ->
  params_id req' = params_id req ->
  reaches_lookup k req' (serve_all calls (world (delete_material env req w))) ->
  fails_with (mutate k env' req' (serve_all calls (world (delete_material env req w))))
    404 "Material not found."
  /\ db (world (mutate k env' req'
                  (serve_all calls (world (delete_material env req w)))))
     = db (serve_all calls (world (delete_material env req w))).
Proof.
  intros Hwf Hb Hid Hreach.
  pose proof (delete_material_deleted env req w b Hb) as Hdb.
  assert (exists row, lookup env req w = inr (Some row)) as [row Hrow].
  { revert Hb. unfold lookup, delete_material.
    destruct (db_get env _ (db w)) as [e|[row|]]; [done|eauto|done]. }
  apply lookup_found in Hrow as (_ & Hin & Haff).
  assert (spent (id row) (db (world (delete_material env req w)))) as Hspent.
  { rewrite Hdb. split; simpl.
    - intros r [_ Hsel]%filter_elem_of Heq. apply negb_true_iff in Hsel.
      assert (selected (id_where (params_id req) r) = true)
        by (apply id_where_selected; congruence).
      congruence.
    - apply db_wf_spec in Hwf as (_ & Hall & _). by apply Hall. }
  apply (serve_all_keeps_spent calls) in Hspent as [Hnone _].
  assert (forall found,
            lookup env' req' (serve_all calls (world (delete_material env req w)))
            <> inr (Some found)) as Hunknown.
  { intros found Hfound. apply lookup_found in Hfound as (_ & Hfin & Hfaff).
    rewrite Hid, Haff in Hfaff. simplify_eq. by destruct (Hnone found Hfin). }
  pose proof (mutate_not_found k env' req' _ Hreach Hunknown) as H404.
  split; [exact H404|]. exact (mutate_404_same_table k env' req' _ H404).
Qed.

(** X11: when the row is found and its files are removed but the DELETE
    statement fails, the answer is 500 and the row stays in the table
    while its document and image are gone from disk. *)
Theorem delete_write_failure_strands_row (env : Env) (req : Request) (w : World)
    (row : Row) (msg : string) :
  lookup env req w = inr (Some row) ->
  (forall p, unlink_err env p = false) ->
  run_err env = Some msg ->
  fails_with (delete_material env req w) 500 ("Database Delete Error: " +:+ msg)
  /\ db (world (delete_material env req w)) = db w
  /\ row ∈ rows (db (world (delete_material env req w)))
  /\ fs (world (delete_material env req w)) !! pdf_path row = None
  /\ (forall p, required (image_path row) = Some p ->
      fs (world (delete_material env req w)) !! p = None).
Proof.
  intros Hlook Hfs Hrun.
  destruct (lookup_found _ _ _ _ Hlook) as (_ & Hin & _).
  unfold lookup in Hlook. unfold fails_with, delete_material. rewrite Hlook.
  rewrite unlink_if_exists_ok by apply Hfs.
  rewrite unlink_image_if_exists_ok by apply Hfs.
  unfold db_delete. rewrite Hrun. simpl. repeat split; try done.
  - apply without_image_lookup, lookup_delete_eq.
  - intros p Hp. unfold without_image. rewrite Hp. apply lookup_delete_eq.
Qed.

(** ** Update: what it touches *)

(** X12: whatever an Update answers, the table keeps its rows in place
    with their ids, and every row the id does not select is unchanged. *)
Theorem update_touches_only_its_row (env : Env) (req : Request) (w : World) :
  id <$> rows (db (world (put_material env req w))) = id <$> rows (db w)
  /\ forall k r, rows (db w) !! k = Some r ->
       selected (id_where (params_id req) r) = false ->
       rows (db (world (put_material env req w))) !! k = Some r.
Proof.
  destruct (put_material_table env req w) as [->|(n & d & c & p & i & ->)]; [done|].
  simpl. split.
  - rewrite <- list_fmap_compose. apply list_fmap_ext.
    intros k r _. simpl. by destruct (selected _).
  - intros k r Hk Hsel. rewrite list_lookup_fmap, Hk. simpl. by rewrite Hsel.
Qed.

Lemma stored_path_not_empty (req : Request) (files files' : gmap string string)
    (uploaded : list File) (f : string) (file : File) :
  upload req files = (inr uploaded, files') ->
  first_file f uploaded = Some file ->
  required (Some (path file)) = Some (path file).
Proof.
  intros Hup Hfirst.
  destruct (first_file_stored _ _ _ _ _ _ Hup Hfirst) as (p & _ & _ & _ & _ & Hpath).
  simpl. rewrite bool_decide_eq_false_2; [done|].
  rewrite Hpath. unfold storage_destination. rewrite !append_assoc.
  intros (_ & E)%append_empty. done.
Qed.

(** X13: an Update that finds its row and brings a new image, with the
    file system and the UPDATE statement working, removes the previous
    image (if the row had one) from disk, leaves the row with the new
    file's path as its image path, and answers 200 with the [image_link]
    built from the new file's path. *)
Theorem update_with_new_image (env : Env) (req : Request) (w : World)
    (uploaded : list File) (files : gmap string string) (n d c : string)
    (existing : Row) (imageFile : File) :
  parsed req w uploaded files n d c ->
  lookup env req w = inr (Some existing) ->
  first_file "image" uploaded = Some imageFile ->
  run_err env = None ->
  (forall p, unlink_err env p = false) ->
  (forall q, required (image_path existing) = Some q ->
     fs (world (put_material env req w)) !! q = None)
  /\ (forall r, r ∈ rows (db (world (put_material env req w))) ->
      id r = id existing -> image_path r = Some (path imageFile))
  /\ exists b, response (put_material env req w) = Some (mkResponse 200 b)
       /\ material_field "image_link" b
          = Some (JStr (upload_link req "images" (path imageFile))).
Proof.
  intros Hparsed Hlook Himage Hrun Hfs.
  rewrite (put_material_found env req w uploaded files n d c existing) by done.
  rewrite Himage. simpl. repeat split.
  - intros q Hq. unfold without_image. rewrite Hq. apply lookup_delete_eq.
  - intros r Hr Hid. apply list_elem_of_fmap in Hr as (r0 & -> & _).
    by case_bool_decide.
  - eexists. split; [reflexivity|]. unfold material_field. simpl.
    unfold image_link. destruct Hparsed as (Hup & _).
    by rewrite (stored_path_not_empty _ _ _ _ _ _ Hup Himage).
Qed.

Lemma db_update_keeps_documents (env : Env) (n d c : string) (i : option string)
    (materialId : string) (t t' : DB) (existing : Row) :
  db_wf t = true ->
  db_get env (id_where materialId) t = inr (Some existing) ->
  db_update env n d c (pdf_path existing) i materialId t = inr t' ->
  (fun r => (id r, pdf_path r)) <$> rows t' = (fun r => (id r, pdf_path r)) <$> rows t.
Proof.
  intros Hwf Hget Hupd. unfold db_update in Hupd.
  destruct (run_err env); [done|]. simplify_eq. simpl.
  rewrite <- list_fmap_compose. apply list_fmap_ext. intros k r Hr. simpl.
  destruct (selected (id_where materialId r)) eqn:Hsel; [|done]. simpl.
  apply list_elem_of_lookup_2 in Hr.
  by rewrite (lookup_unique env materialId t existing r Hwf Hget Hr Hsel).
Qed.

(** X14: an Update whose form carries no document leaves the document
    path of every row as it was, whatever the outcome; when it is answered
    200 the [pdf_link] is the one of the document the row already had. *)
Theorem update_without_document_keeps_document_path (env : Env) (req : Request)
    (w : World) :
  db_wf (db w) = true ->
  has_part "pdf" req = false ->
  (fun r => (id r, pdf_path r)) <$> rows (db (world (put_material env req w)))
  = (fun r => (id r, pdf_path r)) <$> rows (db w)
  /\ forall existing b,
       lookup env req w = inr (Some existing) ->
       response (put_material env req w) = Some (mkResponse 200 b) ->
       material_field "pdf_link" b = Some (pdf_link req (pdf_path existing)).
Proof.
  intros Hwf Hnopdf. unfold lookup, put_material.
  destruct (upload req (fs w)) as [[msg|uploaded] files] eqn:Hup; simpl;
    [split; [done|by intros]|].
  rewrite (upload_first_file_none _ _ _ _ _ Hnopdf Hup).
  destruct (required (body_name req)) as [n|]; [|split; [done|by intros]].
  destruct (required (body_desc req)) as [d|]; [|split; [done|by intros]].
  destruct (required (body_category req)) as [c|]; [|split; [done|by intros]].
  destruct (db_get env (id_where (params_id req)) (db w)) as [e|[existing|]] eqn:Hget;
    [split; [done|by intros]| |split; [done|by intros]].
  destruct (form req) as [ps|]; [|split; [done|by intros]].
  simpl.
  destruct (match first_file "image" uploaded with
            | Some f => (unlink_image_if_exists env (image_path existing) files,
                         Some (path f))
            | None => (Some files, image_path existing)
            end) as [[files2|] newImagePath]; [|split; [done|by intros]].
  destruct (db_update env n d c (pdf_path existing) newImagePath (params_id req) (db w))
    as [e|t'] eqn:Hupd; [split; [done|by intros]|].
  simpl. split.
  - by eapply db_update_keeps_documents.
  - intros existing' b Heq Hb. by simplify_eq.
Qed.

(** The shape of an Update that is answered 200. *)
Lemma put_material_updated (env : Env) (req : Request) (w : World) (b : json) :
  response (put_material env req w) = Some (mkResponse 200 b) ->
  exists n d c existing p i,
    lookup env req w = inr (Some existing)
    /\ b = material_body "Material updated successfully!" (JStr (params_id req))
             n d c req p i
    /\ rows (db (world (put_material env req w)))
       = (fun r => if selected (id_where (params_id req) r)
                   then mkRow (id r) n d c p i else r) <$> rows (db w).
Proof.
  unfold lookup, put_material.
  destruct (upload req (fs w)) as [[msg|uploaded] files]; simpl; [done|].
  destruct (required (body_name req)) as [n|]; [|done].
  destruct (required (body_desc req)) as [d|]; [|done].
  destruct (required (body_category req)) as [c|]; [|done].
  destruct (db_get env _ (db w)) as [e|[existing|]]; [done| |done].
  destruct (form req) as [ps|]; [|done].
  destruct (match first_file "pdf" uploaded with
            | Some f => (unlink_if_exists env (pdf_path existing) files, path f)
            | None => (Some files, pdf_path existing)
            end) as [[files1|] newPdfPath]; [|done].
  destruct (match first_file "image" uploaded with
            | Some f => (unlink_image_if_exists env (image_path existing) files1,
                         Some (path f))
            | None => (Some files1, image_path existing)
            end) as [[files2|] newImagePath]; [|done].
  unfold db_update. destruct (run_err env); [done|].
  simpl. intros Hb. simplify_eq.
  by exists n, d, c, existing, newPdfPath, newImagePath.
Qed.

(** X15: after an Update answered 200, a List that succeeds shows the
    material under its numeric id with the name, description, category
    and links of the Update's answer, and shows no other material with
    that id. *)
Theorem updated_material_is_listed (env env' : Env) (req : Request) (w : World)
    (b : json) :
  response (put_material env req w) = Some (mkResponse 200 b) ->
  all_err env' = None ->
  exists items item z,
    response (get_materials env' req (world (put_material env req w)))
    = Some (mkResponse 200 (JArr items))
    /\ item ∈ items
    /\ numeric_affinity (params_id req) = Some z
    /\ field "id" item = Some (JNum z)
    /\ (forall k, k ∈ ["name"; "desc"; "category"; "pdf_link"; "image_link"] ->
          field k item = material_field k b)
    /\ forall item', item' ∈ items -> field "id" item' = Some (JNum z) -> item' = item.
Proof.
  intros Hb Hall.
  destruct (put_material_updated env req w b Hb)
    as (n & d & c & existing & p & i & Hlook & -> & Hrows).
  destruct (lookup_found _ _ _ _ Hlook) as (_ & Hin & Haff).
  unfold get_materials, db_all. rewrite Hall, Hrows. simpl.
  exists (row_json req <$> ((fun r => if selected (id_where (params_id req) r)
                                      then mkRow (id r) n d c p i else r)
                            <$> rows (db w))),
         (row_json req (mkRow (id existing) n d c p i)), (id existing).
  split; [done|]. split.
  { apply list_elem_of_fmap. eexists. split; [reflexivity|].
    apply list_elem_of_fmap. exists existing. split; [|done].
    by rewrite (proj2 (id_where_selected _ _) Haff). }
  split; [done|]. split; [done|]. split.
  { intros k Hk. rewrite !elem_of_cons, elem_of_nil in Hk.
    destruct Hk as [->|[->|[->|[->|[->|[]]]]]]; reflexivity. }
  intros item' (r' & -> & (r & -> & Hr)%list_elem_of_fmap)%list_elem_of_fmap Hid.
  destruct (selected (id_where (params_id req) r)) eqn:Hsel.
  - apply id_where_selected in Hsel.
    assert (id r = id existing) as -> by congruence. done.
  - simpl in Hid. simplify_eq.
    assert (selected (id_where (params_id req) r) = true) as Hyes
      by (apply id_where_selected; congruence).
    congruence.
Qed.

(** X21: an Update whose form is parsed but whose id selects no row is
    answered 404 with the table as it was, and the files its upload stored
    stay on disk with their content. *)
Theorem update_unknown_id_keeps_uploaded_files (env : Env) (req : Request) (w : World)
    (uploaded : list File) (files : gmap string string) (n d c : string) :
  parsed req w uploaded files n d c ->
  (forall r, r ∈ rows (db w) -> selected (id_where (params_id req) r) = false) ->
  fails_with (put_material env req w) 404 "Material not found."
  /\ db (world (put_material env req w)) = db w
  /\ forall file, file ∈ uploaded ->
       exists p, p ∈ parts req /\ file = stored_file p
         /\ fs (world (put_material env req w)) !! path file = Some (part_content p).
Proof.
  intros (Hup & Hn & Hd & Hc & Hform) Hnone. apply find_none_iff in Hnone.
  assert (put_material env req w
          = reply 404 (error_body "Material not found.") (mkWorld (db w) files)) as ->.
  { unfold put_material, db_get. rewrite Hup, Hn, Hd, Hc, Hnone.
    by destruct (get_err env). }
  split; [done|]. split; [done|]. simpl. intros file Hfile. unfold upload in Hup.
  destruct (upload_parts_on_disk (parts req) upload_limits [] (fs w) uploaded files
              Hup upload_limits_small) as (uc & -> & Huc).
  { intros fc Hfc. by apply elem_of_nil in Hfc. }
  apply list_elem_of_fmap in Hfile as (fc & -> & Hfc).
  destruct (Huc fc Hfc) as [Hdisk [Hnil%elem_of_nil|(p & Hp & Hname & ->)]]; [done|].
  by exists p.
Qed.

End Properties.

(** * Worked requests

    The properties above, applied on a POSIX host whose text ids are
    decimal literals. *)

#[local] Existing Instance posix.

(** C1: the sample material is created, and the same form with the same
    document is posted again one millisecond later.  The second Create is
    answered 201, not 409, and the table then has two rows: the stored
    document paths carry the clock reading, so the duplicate check finds
    no row with the second upload's path. *)
Theorem identical_create_one_millisecond_later :
  let first := post_materials quiet (algebra 1700000000000) empty_world in
  let second :=
    post_materials quiet (resend 1700000000001 (algebra 1700000000000)) (world first) in
  status <$> response first = Some 201
  /\ status <$> response second = Some 201
  /\ length (rows (db (world first))) = 1%nat
  /\ length (rows (db (world second))) = 2%nat.
Proof. vm_compute. done. Qed.

(** With the same clock reading the stored path is the same and the
    duplicate check does fire. *)
Example identical_create_same_millisecond :
  fails_with (post_materials quiet (algebra 1700000000000) algebra_world)
    409 "Material already exists!".
Proof. reflexivity. Qed.

(** C2: a row without an image is a hit for a supplied image path, where
    the specification's reading answers false. *)
Lemma duplicate_check_not_as_specified :
  ~ duplicate_check_as_specified quiet "Algebra Notes" "Ch1-3" "Math"
      "/srv/app/uploads/pdfs/1700000000000-algebra_notes.pdf"
      (Some "/srv/app/uploads/images/1700000000000-cover.png") (db algebra_world).
Proof. unfold duplicate_check_as_specified. vm_compute. discriminate. Qed.

Lemma checkDuplicateMaterial_exact_witness :
  get_err quiet = None
  /\ exists b : bool,
       checkDuplicateMaterial quiet (Some "Algebra Notes") (Some "Ch1-3") (Some "Math")
         (Some "/srv/app/uploads/pdfs/1700000000000-algebra_notes.pdf")
         (Some "/srv/app/uploads/images/1700000000000-cover.png") (db algebra_world)
       = inr b
       /\ (b = true <->
           exists r, r ∈ rows (db algebra_world) /\ name r = "Algebra Notes"
                     /\ desc r = "Ch1-3" /\ category r = "Math"
                     /\ pdf_path r = "/srv/app/uploads/pdfs/1700000000000-algebra_notes.pdf"
                     /\ (image_path r = None
                         \/ image_path r
                            = Some "/srv/app/uploads/images/1700000000000-cover.png")).
Proof.
  split; [reflexivity|].
  apply (checkDuplicateMaterial_exact quiet). reflexivity.
Defined.

(** C3: the form without a name is answered 400, yet its document is on
    disk afterwards. *)
Lemma nameless_create_leaves_file :
  invalid_create (nameless 1700000000000) = true
  /\ ~ rejected_without_effect quiet (nameless 1700000000000) empty_world.
Proof.
  split; [reflexivity|]. intros (_ & Hfs & _).
  apply (f_equal (fun m => m !! "/srv/app/uploads/pdfs/1700000000000-algebra_notes.pdf"))
    in Hfs.
  vm_compute in Hfs. discriminate.
Qed.

Lemma invalid_create_rejected_witness :
  invalid_create (nameless 1700000000000) = true
  /\ (form (nameless 1700000000000) <> None
      \/ incomplete (nameless 1700000000000) = true)
  /\ (exists msg, fails_with (post_materials quiet (nameless 1700000000000) empty_world)
                    400 msg)
  /\ db (world (post_materials quiet (nameless 1700000000000) empty_world))
     = db empty_world
  /\ fs (world (post_materials quiet (nameless 1700000000000) empty_world))
     = (upload (nameless 1700000000000) (fs empty_world)).2
  /\ forall uploaded files,
       upload (nameless 1700000000000) (fs empty_world) = (inr uploaded, files) ->
       forall file, file ∈ uploaded ->
         exists p, p ∈ parts (nameless 1700000000000) /\ file = stored_file p
           /\ fs (world (post_materials quiet (nameless 1700000000000) empty_world))
                !! path file = Some (part_content p).
Proof.
  assert (form (nameless 1700000000000) <> None
          \/ incomplete (nameless 1700000000000) = true) as Hcase
    by (right; reflexivity).
  split; [reflexivity|]. split; [exact Hcase|].
  exact (invalid_create_rejected quiet (nameless 1700000000000) empty_world
           eq_refl Hcase).
Defined.

(** The three texts as a JSON body: the Create is answered with Express's
    error page, the Update of a stored material with nothing at all. *)
Example json_create_throws :
  post_materials quiet (as_json "") algebra_world
  = reply 500 (JStr "Internal Server Error") algebra_world.
Proof. reflexivity. Qed.

Example json_update_uncaught :
  put_material quiet (as_json "1") algebra_world = uncaught algebra_world.
Proof. reflexivity. Qed.

(** C4: the lookup of a stored material fails in the database and the
    Delete is answered 404, not 500. *)
Lemma failed_lookup_reported_not_found :
  ~ error_kinds_kept_apart Delete busy_lookup (by_id "1") algebra_world.
Proof.
  intros (_ & Hlookup & _).
  assert (is_Some (get_err busy_lookup)) as Hfail by (by eexists).
  specialize (Hlookup Hfail). vm_compute in Hlookup. discriminate.
Qed.

Lemma mutation_error_kinds_witness :
  reaches_lookup Update (revise "1" [second_edition 1700000500000]) algebra_world
  /\ fails_with (put_material quiet (revise "7" [second_edition 1700000500000]) algebra_world)
       404 "Material not found."
  /\ fails_with (delete_material busy_lookup (by_id "1") algebra_world)
       404 "Material not found."
  /\ fails_with
       (put_material busy_write (revise "1" [second_edition 1700000500000]) algebra_world)
       500 "Database Error: SQLITE_BUSY".
Proof.
  assert (forall ident,
            reaches_lookup Update (revise ident [second_edition 1700000500000])
              algebra_world) as Hreach.
  { intros ident. exists [second_edition_file].
    exists (upload (revise ident [second_edition 1700000500000]) (fs algebra_world)).2.
    exists "Algebra II", "Ch4-6", "Math". by repeat split. }
  split; [apply Hreach|]. split; [|split].
  - apply (mutation_error_kinds Update quiet
             (revise "7" [second_edition 1700000500000]) algebra_world (Hreach "7")).
    reflexivity.
  - apply (mutation_error_kinds Delete busy_lookup (by_id "1") algebra_world I)
      with (msg := "SQLITE_BUSY").
    reflexivity.
  - apply (mutation_error_kinds Update busy_write
             (revise "1" [second_edition 1700000500000]) algebra_world (Hreach "1"))
      with (row := algebra_row) (msg := "SQLITE_BUSY"); reflexivity.
Defined.

Lemma delete_existing_witness :
  lookup quiet (by_id "1") covered_world = inr (Some covered_row)
  /\ run_err quiet = None
  /\ (forall p, unlink_err quiet p = false)
  /\ response (delete_material quiet (by_id "1") covered_world)
     = Some (mkResponse 200 (JObj [("message", JStr "Material deleted successfully.")]))
  /\ fs (world (delete_material quiet (by_id "1") covered_world))
       !! pdf_path covered_row = None
  /\ (covered_row ∉ rows (db (world (delete_material quiet (by_id "1") covered_world)))).
Proof.
  assert (lookup quiet (by_id "1") covered_world = inr (Some covered_row)) as Hlook
    by reflexivity.
  assert (forall p, unlink_err quiet p = false) as Hfs by reflexivity.
  split; [exact Hlook|]. split; [reflexivity|]. split; [exact Hfs|].
  destruct (delete_existing quiet (by_id "1") covered_world covered_row Hlook eq_refl Hfs)
    as (Hresp & _ & Hpdf & _ & _ & Hgone & _).
  split; [exact Hresp|]. split; [exact Hpdf|exact Hgone].
Defined.

(** The files of the stored material are already gone from disk: the
    Delete still goes through. *)
Example delete_with_files_missing :
  delete_material quiet (by_id "1") (mkWorld (db covered_world) ∅)
  = reply 200 (JObj [("message", JStr "Material deleted successfully.")])
      (mkWorld (mkDB [] 1) ∅).
Proof. reflexivity. Qed.

Lemma delete_unknown_id_witness :
  (forall r, r ∈ rows (db algebra_world) -> selected (id_where "7" r) = false)
  /\ fails_with (delete_material quiet (by_id "7") algebra_world) 404 "Material not found."
  /\ world (delete_material quiet (by_id "7") algebra_world) = algebra_world.
Proof.
  assert (forall r, r ∈ rows (db algebra_world) -> selected (id_where "7" r) = false)
    as Hnone.
  { intros r Hr. apply list_elem_of_singleton in Hr. by rewrite Hr. }
  split; [exact Hnone|].
  exact (delete_unknown_id quiet (by_id "7") algebra_world Hnone).
Defined.

Lemma update_with_new_document_witness :
  parsed (revise "1" [second_edition 1700000500000]) algebra_world [second_edition_file]
    (upload (revise "1" [second_edition 1700000500000]) (fs algebra_world)).2
    "Algebra II" "Ch4-6" "Math"
  /\ lookup quiet (revise "1" [second_edition 1700000500000]) algebra_world
     = inr (Some algebra_row)
  /\ first_file "pdf" [second_edition_file] = Some second_edition_file
  /\ run_err quiet = None
  /\ (forall p, unlink_err quiet p = false)
  /\ fs (world (put_material quiet (revise "1" [second_edition 1700000500000])
                  algebra_world)) !! pdf_path algebra_row = None
  /\ (forall r,
        r ∈ rows (db (world (put_material quiet
                               (revise "1" [second_edition 1700000500000])
                               algebra_world))) ->
        id r = id algebra_row -> pdf_path r = path second_edition_file)
  /\ exists b,
       response (put_material quiet (revise "1" [second_edition 1700000500000])
                   algebra_world) = Some (mkResponse 200 b)
       /\ field "material" b ≫= field "pdf_link"
          = Some (JStr "http://localhost:5000/uploads/pdfs/1700000500000-algebra_2.pdf").
Proof.
  assert (parsed (revise "1" [second_edition 1700000500000]) algebra_world
            [second_edition_file]
            (upload (revise "1" [second_edition 1700000500000]) (fs algebra_world)).2
            "Algebra II" "Ch4-6" "Math") as Hparsed by (by repeat split).
  assert (forall p, unlink_err quiet p = false) as Hfs by reflexivity.
  split; [exact Hparsed|]. do 3 (split; [reflexivity|]). split; [exact Hfs|].
  destruct (update_with_new_document quiet (revise "1" [second_edition 1700000500000])
              algebra_world _ _ _ _ _ algebra_row second_edition_file
              Hparsed eq_refl eq_refl eq_refl Hfs)
    as (Hgone & _ & Hpath & Hlink).
  split; [exact Hgone|]. split; [exact Hpath|exact Hlink].
Defined.

Lemma update_without_image_keeps_image_path_witness :
  db_wf (db covered_world) = true
  /\ has_part "image" (revise "1" [second_edition 1700000500000]) = false
  /\ (fun r => (id r, image_path r))
       <$> rows (db (world (put_material quiet
                              (revise "1" [second_edition 1700000500000])
                              covered_world)))
     = [(1, Some "/srv/app/uploads/images/1700000000000-cover.png")]
  /\ forall b,
       response (put_material quiet (revise "1" [second_edition 1700000500000])
                   covered_world) = Some (mkResponse 200 b) ->
       field "material" b ≫= field "image_link"
       = Some (JStr "http://localhost:5000/uploads/images/1700000000000-cover.png").
Proof.
  split; [reflexivity|]. split; [reflexivity|].
  destruct (update_without_image_keeps_image_path quiet
              (revise "1" [second_edition 1700000500000]) covered_world
              eq_refl eq_refl) as [Hkept Hlink].
  split; [exact Hkept|].
  intros b Hb. exact (Hlink covered_row b eq_refl Hb).
Defined.

Lemma create_with_image_hits_imageless_row_witness :
  parsed (algebra_with_cover 1700000000000) algebra_world [notes_file; cover_file]
    (upload (algebra_with_cover 1700000000000) (fs algebra_world)).2
    "Algebra Notes" "Ch1-3" "Math"
  /\ first_file "pdf" [notes_file; cover_file] = Some notes_file
  /\ first_file "image" [notes_file; cover_file] = Some cover_file
  /\ get_err quiet = None
  /\ algebra_row ∈ rows (db algebra_world)
  /\ pdf_path algebra_row = path notes_file
  /\ image_path algebra_row = None
  /\ checkDuplicateMaterial quiet (Some "Algebra Notes") (Some "Ch1-3") (Some "Math")
       (Some (path notes_file)) (Some (path cover_file)) (db algebra_world) = inr true
  /\ fails_with (post_materials quiet (algebra_with_cover 1700000000000) algebra_world)
       409 "Material already exists!"
  /\ db (world (post_materials quiet (algebra_with_cover 1700000000000) algebra_world))
     = db algebra_world.
Proof.
  assert (parsed (algebra_with_cover 1700000000000) algebra_world [notes_file; cover_file]
            (upload (algebra_with_cover 1700000000000) (fs algebra_world)).2
            "Algebra Notes" "Ch1-3" "Math") as Hparsed by (by repeat split).
  assert (algebra_row ∈ rows (db algebra_world)) as Hin by apply list_elem_of_here.
  split; [exact Hparsed|]. do 3 (split; [reflexivity|]). split; [exact Hin|].
  do 2 (split; [reflexivity|]).
  exact (create_with_image_hits_imageless_row quiet (algebra_with_cover 1700000000000)
           algebra_world _ _ _ _ _ notes_file cover_file algebra_row
           Hparsed eq_refl eq_refl eq_refl Hin eq_refl eq_refl eq_refl eq_refl eq_refl).
Defined.


(** ** Worked requests for the further properties *)

Lemma upload_takes_one_file_per_field_witness :
  upload (algebra_with_cover 1700000000000) ∅
  = (inr [notes_file; cover_file], (upload (algebra_with_cover 1700000000000) ∅).2)
  /\ (forall f,
        (length (List.filter (fun x => bool_decide (fieldname x = f))
                   [notes_file; cover_file]) <= 1)%nat)
  /\ forall file, file ∈ [notes_file; cover_file] ->
       (fieldname file = "pdf" /\ mimetype file = "application/pdf")
       \/ (fieldname file = "image"
           /\ mimetype file ∈ ["image/jpeg"; "image/png"; "image/jpg"]).
Proof.
  assert (upload (algebra_with_cover 1700000000000) ∅
          = (inr [notes_file; cover_file],
             (upload (algebra_with_cover 1700000000000) ∅).2)) as Hup by reflexivity.
  split; [exact Hup|].
  exact (upload_takes_one_file_per_field _ _ _ _ Hup).
Defined.

Lemma upload_stores_every_file_witness :
  upload (algebra_with_cover 1700000000000) ∅
  = (inr [notes_file; cover_file], (upload (algebra_with_cover 1700000000000) ∅).2)
  /\ cover_file ∈ [notes_file; cover_file]
  /\ exists p, p ∈ parts (algebra_with_cover 1700000000000) /\ part_filename p <> ""
       /\ cover_file = stored_file p
       /\ (upload (algebra_with_cover 1700000000000) ∅).2 !! path cover_file
          = Some (part_content p).
Proof.
  assert (upload (algebra_with_cover 1700000000000) ∅
          = (inr [notes_file; cover_file],
             (upload (algebra_with_cover 1700000000000) ∅).2)) as Hup by reflexivity.
  assert (cover_file ∈ [notes_file; cover_file]) as Hin
    by apply list_elem_of_further, list_elem_of_here.
  split; [exact Hup|]. split; [exact Hin|].
  exact (upload_stores_every_file _ _ _ _ Hup cover_file Hin).
Defined.

Lemma refused_part_rejects_form_witness :
  existsb refused (parts plain_text) = true
  /\ exists msg,
       fails_with (post_materials quiet plain_text algebra_world) 400
         ("Upload Error: " +:+ msg)
       /\ fails_with (put_material quiet plain_text algebra_world) 400
            ("Upload Error: " +:+ msg)
       /\ db (world (post_materials quiet plain_text algebra_world)) = db algebra_world
       /\ db (world (put_material quiet plain_text algebra_world)) = db algebra_world.
Proof.
  split; [reflexivity|].
  apply (refused_part_rejects_form quiet plain_text algebra_world). reflexivity.
Defined.

Lemma created_material_is_stored_witness :
  response (post_materials quiet (algebra_with_cover 1700000000001) algebra_world)
  = Some (mkResponse 201
            (answer (post_materials quiet (algebra_with_cover 1700000000001)
                       algebra_world)))
  /\ exists row p,
       rows (db (world (post_materials quiet (algebra_with_cover 1700000000001)
                          algebra_world)))
       = (rows (db algebra_world) ++ [row])%list
       /\ p ∈ parts (algebra_with_cover 1700000000001) /\ part_field p = "pdf"
       /\ fs (world (post_materials quiet (algebra_with_cover 1700000000001)
                       algebra_world)) !! pdf_path row = Some (part_content p).
Proof.
  assert (response (post_materials quiet (algebra_with_cover 1700000000001)
                      algebra_world)
          = Some (mkResponse 201
                    (answer (post_materials quiet (algebra_with_cover 1700000000001)
                               algebra_world)))) as Hb by reflexivity.
  split; [exact Hb|].
  destruct (created_material_is_stored quiet (algebra_with_cover 1700000000001)
              algebra_world _ Hb) as (row & p & Hrows & Hp & Hfield & Hdisk & _).
  by exists row, p.
Defined.

Lemma create_keeps_uploaded_files_witness :
  upload (nameless 1700000000000) (fs empty_world)
  = (inr [notes_file], (upload (nameless 1700000000000) (fs empty_world)).2)
  /\ status <$> response (post_materials quiet (nameless 1700000000000) empty_world)
     <> Some 201
  /\ (exists p, p ∈ parts (nameless 1700000000000) /\ notes_file = stored_file p
        /\ fs (world (post_materials quiet (nameless 1700000000000) empty_world))
             !! path notes_file = Some (part_content p))
  /\ db (world (post_materials quiet (nameless 1700000000000) empty_world))
     = db empty_world.
Proof.
  assert (upload (nameless 1700000000000) (fs empty_world)
          = (inr [notes_file], (upload (nameless 1700000000000) (fs empty_world)).2))
    as Hup by reflexivity.
  assert (status <$> response (post_materials quiet (nameless 1700000000000) empty_world)
          <> Some 201) as Hnot by (vm_compute; discriminate).
  destruct (create_keeps_uploaded_files quiet (nameless 1700000000000) empty_world
              _ _ Hup) as [Hfiles Hdb].
  split; [exact Hup|]. split; [exact Hnot|].
  split; [exact (Hfiles notes_file (list_elem_of_here _ _))|exact (Hdb Hnot)].
Defined.

Lemma created_material_is_listed_witness :
  response (post_materials quiet (algebra 1700000000001) algebra_world)
  = Some (mkResponse 201
            (answer (post_materials quiet (algebra 1700000000001) algebra_world)))
  /\ all_err quiet = None
  /\ exists items item,
       response (get_materials quiet (algebra 1700000000001) algebra_world)
       = Some (mkResponse 200 (JArr items))
       /\ response (get_materials quiet (algebra 1700000000001)
                      (world (post_materials quiet (algebra 1700000000001)
                                algebra_world)))
          = Some (mkResponse 200 (JArr (items ++ [item])%list))
       /\ forall k, k ∈ ["id"; "name"; "desc"; "category"; "pdf_link"; "image_link"] ->
            field k item
            = material_field k
                (answer (post_materials quiet (algebra 1700000000001) algebra_world)).
Proof.
  assert (response (post_materials quiet (algebra 1700000000001) algebra_world)
          = Some (mkResponse 201
                    (answer (post_materials quiet (algebra 1700000000001)
                               algebra_world)))) as Hb by reflexivity.
  split; [exact Hb|]. split; [reflexivity|].
  exact (created_material_is_listed quiet quiet (algebra 1700000000001) algebra_world
           _ Hb eq_refl).
Defined.

Lemma table_changes_only_on_success_witness :
  db (world (serve Create quiet (algebra 1700000000000) empty_world)) <> db empty_world
  /\ Create <> List
  /\ status <$> response (serve Create quiet (algebra 1700000000000) empty_world)
     = Some (success_code Create).
Proof.
  assert (db (world (serve Create quiet (algebra 1700000000000) empty_world))
          <> db empty_world) as Hchanged.
  { intros E. apply (f_equal seq) in E. vm_compute in E. discriminate. }
  split; [exact Hchanged|].
  exact (table_changes_only_on_success Create quiet (algebra 1700000000000)
           empty_world Hchanged).
Defined.

Lemma created_ids_increase_witness :
  response (post_materials quiet (algebra 1700000000000) empty_world)
  = Some (mkResponse 201
            (answer (post_materials quiet (algebra 1700000000000) empty_world)))
  /\ response (post_materials quiet (algebra 1700000000001)
                 (serve_all [(Mutate Delete, quiet, by_id "1")]
                    (world (post_materials quiet (algebra 1700000000000)
                              empty_world))))
     = Some (mkResponse 201
               (answer (post_materials quiet (algebra 1700000000001)
                          (serve_all [(Mutate Delete, quiet, by_id "1")]
                             (world (post_materials quiet (algebra 1700000000000)
                                       empty_world))))))
  /\ exists i1 i2,
       material_field "id"
         (answer (post_materials quiet (algebra 1700000000000) empty_world))
       = Some (JNum i1)
       /\ material_field "id"
            (answer (post_materials quiet (algebra 1700000000001)
                       (serve_all [(Mutate Delete, quiet, by_id "1")]
                          (world (post_materials quiet (algebra 1700000000000)
                                    empty_world)))))
          = Some (JNum i2)
       /\ i1 < i2.
Proof.
  assert (response (post_materials quiet (algebra 1700000000000) empty_world)
          = Some (mkResponse 201
                    (answer (post_materials quiet (algebra 1700000000000)
                               empty_world)))) as Hb1 by reflexivity.
  assert (response (post_materials quiet (algebra 1700000000001)
                      (serve_all [(Mutate Delete, quiet, by_id "1")]
                         (world (post_materials quiet (algebra 1700000000000)
                                   empty_world))))
          = Some (mkResponse 201
                    (answer (post_materials quiet (algebra 1700000000001)
                               (serve_all [(Mutate Delete, quiet, by_id "1")]
                                  (world (post_materials quiet (algebra 1700000000000)
                                            empty_world))))))) as Hb2 by reflexivity.
  split; [exact Hb1|]. split; [exact Hb2|].
  exact (created_ids_increase quiet quiet (algebra 1700000000000)
           (algebra 1700000000001) empty_world [(Mutate Delete, quiet, by_id "1")]
           _ _ Hb1 Hb2).
Defined.

Lemma deleted_id_is_unknown_witness :
  db_wf (db covered_world) = true
  /\ response (delete_material quiet (by_id "1") covered_world)
     = Some (mkResponse 200 (answer (delete_material quiet (by_id "1") covered_world)))
  /\ params_id (by_id "1") = params_id (by_id "1")
  /\ reaches_lookup Delete (by_id "1")
       (serve_all [(Create, quiet, algebra 1700000000001);
                   (Create, quiet, algebra_with_cover 1700000000002)]
          (world (delete_material quiet (by_id "1") covered_world)))
  /\ fails_with
       (mutate Delete quiet (by_id "1")
          (serve_all [(Create, quiet, algebra 1700000000001);
                      (Create, quiet, algebra_with_cover 1700000000002)]
             (world (delete_material quiet (by_id "1") covered_world))))
       404 "Material not found."
  /\ db (world (mutate Delete quiet (by_id "1")
                  (serve_all [(Create, quiet, algebra 1700000000001);
                              (Create, quiet, algebra_with_cover 1700000000002)]
                     (world (delete_material quiet (by_id "1") covered_world)))))
     = db (serve_all [(Create, quiet, algebra 1700000000001);
                      (Create, quiet, algebra_with_cover 1700000000002)]
             (world (delete_material quiet (by_id "1") covered_world))).
Proof.
  assert (response (delete_material quiet (by_id "1") covered_world)
          = Some (mkResponse 200
                    (answer (delete_material quiet (by_id "1") covered_world))))
    as Hb by reflexivity.
  split; [reflexivity|]. split; [exact Hb|]. split; [reflexivity|]. split; [exact I|].
  exact (deleted_id_is_unknown quiet quiet (by_id "1") (by_id "1") covered_world
           _ [(Create, quiet, algebra 1700000000001);
              (Create, quiet, algebra_with_cover 1700000000002)] Delete
           eq_refl Hb eq_refl I).
Defined.

Lemma delete_write_failure_strands_row_witness :
  lookup busy_write (by_id "1") covered_world = inr (Some covered_row)
  /\ (forall p, unlink_err busy_write p = false)
  /\ run_err busy_write = Some "SQLITE_BUSY"
  /\ fails_with (delete_material busy_write (by_id "1") covered_world) 500
       ("Database Delete Error: " +:+ "SQLITE_BUSY")
  /\ db (world (delete_material busy_write (by_id "1") covered_world)) = db covered_world
  /\ covered_row ∈ rows (db (world (delete_material busy_write (by_id "1") covered_world)))
  /\ fs (world (delete_material busy_write (by_id "1") covered_world))
       !! pdf_path covered_row = None
  /\ (forall p, required (image_path covered_row) = Some p ->
      fs (world (delete_material busy_write (by_id "1") covered_world)) !! p = None).
Proof.
  assert (forall p, unlink_err busy_write p = false) as Hfs by reflexivity.
  split; [reflexivity|]. split; [exact Hfs|]. split; [reflexivity|].
  exact (delete_write_failure_strands_row busy_write (by_id "1") covered_world
           covered_row "SQLITE_BUSY" eq_refl Hfs eq_refl).
Defined.

Lemma update_with_new_image_witness :
  parsed (revise "1" [new_cover 1700000500000]) covered_world [new_cover_file]
    (upload (revise "1" [new_cover 1700000500000]) (fs covered_world)).2
    "Algebra II" "Ch4-6" "Math"
  /\ lookup quiet (revise "1" [new_cover 1700000500000]) covered_world
     = inr (Some covered_row)
  /\ first_file "image" [new_cover_file] = Some new_cover_file
  /\ run_err quiet = None
  /\ (forall p, unlink_err quiet p = false)
  /\ (forall q, required (image_path covered_row) = Some q ->
        fs (world (put_material quiet (revise "1" [new_cover 1700000500000])
                     covered_world)) !! q = None)
  /\ (forall r,
        r ∈ rows (db (world (put_material quiet (revise "1" [new_cover 1700000500000])
                               covered_world))) ->
        id r = id covered_row -> image_path r = Some (path new_cover_file))
  /\ exists b,
       response (put_material quiet (revise "1" [new_cover 1700000500000])
                   covered_world) = Some (mkResponse 200 b)
       /\ material_field "image_link" b
          = Some (JStr (upload_link (revise "1" [new_cover 1700000500000]) "images"
                          (path new_cover_file))).
Proof.
  assert (parsed (revise "1" [new_cover 1700000500000]) covered_world [new_cover_file]
            (upload (revise "1" [new_cover 1700000500000]) (fs covered_world)).2
            "Algebra II" "Ch4-6" "Math") as Hparsed by (by repeat split).
  assert (forall p, unlink_err quiet p = false) as Hfs by reflexivity.
  split; [exact Hparsed|]. do 3 (split; [reflexivity|]). split; [exact Hfs|].
  exact (update_with_new_image quiet (revise "1" [new_cover 1700000500000])
           covered_world _ _ _ _ _ covered_row new_cover_file
           Hparsed eq_refl eq_refl eq_refl Hfs).
Defined.

Lemma update_without_document_keeps_document_path_witness :
  db_wf (db covered_world) = true
  /\ has_part "pdf" (revise "1" [new_cover 1700000500000]) = false
  /\ (fun r => (id r, pdf_path r))
       <$> rows (db (world (put_material quiet (revise "1" [new_cover 1700000500000])
                              covered_world)))
     = (fun r => (id r, pdf_path r)) <$> rows (db covered_world)
  /\ forall existing b,
       lookup quiet (revise "1" [new_cover 1700000500000]) covered_world
       = inr (Some existing) ->
       response (put_material quiet (revise "1" [new_cover 1700000500000])
                   covered_world) = Some (mkResponse 200 b) ->
       material_field "pdf_link" b
       = Some (pdf_link (revise "1" [new_cover 1700000500000]) (pdf_path existing)).
Proof.
  split; [reflexivity|]. split; [reflexivity|].
  exact (update_without_document_keeps_document_path quiet
           (revise "1" [new_cover 1700000500000]) covered_world eq_refl eq_refl).
Defined.

Lemma updated_material_is_listed_witness :
  response (put_material quiet (revise "1" [second_edition 1700000500000]) algebra_world)
  = Some (mkResponse 200
            (answer (put_material quiet (revise "1" [second_edition 1700000500000])
                       algebra_world)))
  /\ all_err quiet = None
  /\ exists items item z,
       response (get_materials quiet (revise "1" [second_edition 1700000500000])
                   (world (put_material quiet
                             (revise "1" [second_edition 1700000500000])
                             algebra_world)))
       = Some (mkResponse 200 (JArr items))
       /\ item ∈ items
       /\ numeric_affinity (params_id (revise "1" [second_edition 1700000500000]))
          = Some z
       /\ field "id" item = Some (JNum z)
       /\ (forall k, k ∈ ["name"; "desc"; "category"; "pdf_link"; "image_link"] ->
             field k item
             = material_field k
                 (answer (put_material quiet
                            (revise "1" [second_edition 1700000500000])
                            algebra_world)))
       /\ forall item', item' ∈ items -> field "id" item' = Some (JNum z) ->
            item' = item.
Proof.
  assert (response (put_material quiet (revise "1" [second_edition 1700000500000])
                      algebra_world)
          = Some (mkResponse 200
                    (answer (put_material quiet
                               (revise "1" [second_edition 1700000500000])
                               algebra_world)))) as Hb by reflexivity.
  split; [exact Hb|]. split; [reflexivity|].
  exact (updated_material_is_listed quiet quiet
           (revise "1" [second_edition 1700000500000]) algebra_world _ Hb eq_refl).
Defined.

Lemma reachable_well_formed_witness :
  reachable (world (serve Create quiet (algebra 1700000000000) empty_world))
  /\ db_wf (db (world (serve Create quiet (algebra 1700000000000) empty_world))) = true.
Proof.
  assert (reachable (world (serve Create quiet (algebra 1700000000000) empty_world)))
    as Hreach by (apply reachable_serve; apply (reachable_start ∅)).
  split; [exact Hreach|]. exact (reachable_well_formed _ Hreach).
Defined.

Lemma create_repeated_at_another_time_witness :
  get_err quiet = None /\ run_err quiet = None
  /\ parts (algebra 0) = [notes_pdf 0]
  /\ part_field (notes_pdf 0) = "pdf" /\ part_filename (notes_pdf 0) <> ""
  /\ part_mimetype (notes_pdf 0) = "application/pdf"
  /\ 1700000000001 <> 1700000000000
  /\ (forall r, r ∈ rows (db empty_world) ->
        pdf_path r <> storage_destination "pdf" +:+ "/"
                      +:+ storage_filename 1700000000001 (part_filename (notes_pdf 0)))
  /\ status <$> response (post_materials quiet (resend 1700000000000 (algebra 0))
                            empty_world) = Some 201
  /\ status <$> response
       (post_materials quiet (resend 1700000000001 (algebra 0))
          (world (post_materials quiet (resend 1700000000000 (algebra 0)) empty_world)))
     = Some 201
  /\ length (rows (db (world
       (post_materials quiet (resend 1700000000001 (algebra 0))
          (world (post_materials quiet (resend 1700000000000 (algebra 0))
                    empty_world))))))
     = S (length (rows (db (world (post_materials quiet
                                     (resend 1700000000000 (algebra 0))
                                     empty_world))))).
Proof.
  assert (part_filename (notes_pdf 0) <> "") as Hname by done.
  assert (1700000000001 <> 1700000000000) as Hclock by done.
  assert (forall r, r ∈ rows (db empty_world) ->
            pdf_path r <> storage_destination "pdf" +:+ "/"
                          +:+ storage_filename 1700000000001
                                (part_filename (notes_pdf 0))) as Hfresh.
  { intros r Hr. by apply elem_of_nil in Hr. }
  do 4 (split; [reflexivity|]). split; [exact Hname|]. split; [reflexivity|].
  split; [exact Hclock|]. split; [exact Hfresh|]. split; [reflexivity|].
  exact (create_repeated_at_another_time quiet (algebra 0) (notes_pdf 0) empty_world
           1700000000000 1700000000001 eq_refl eq_refl eq_refl eq_refl Hname eq_refl
           Hclock Hfresh eq_refl).
Defined.

Lemma create_conflict_same_path_witness :
  fails_with (post_materials quiet (algebra 1700000000000) algebra_world)
    409 "Material already exists!"
  /\ exists uploaded files pdfFile r,
       upload (algebra 1700000000000) (fs algebra_world) = (inr uploaded, files)
       /\ first_file "pdf" uploaded = Some pdfFile
       /\ r ∈ rows (db algebra_world) /\ pdf_path r = path pdfFile.
Proof.
  assert (fails_with (post_materials quiet (algebra 1700000000000) algebra_world)
            409 "Material already exists!") as H409 by reflexivity.
  split; [exact H409|].
  exact (create_conflict_same_path quiet (algebra 1700000000000) algebra_world _ H409).
Defined.

Lemma upload_link_stored_witness :
  has_slash "algebra notes.pdf" = false
  /\ upload_link (by_id "") "pdfs"
       ("/srv/app/uploads/pdfs" +:+ "/"
        +:+ storage_filename 1700000000000 "algebra notes.pdf")
     = protocol (by_id "") +:+ "://" +:+ host (by_id "") +:+ "/uploads/" +:+ "pdfs"
       +:+ "/" +:+ storage_filename 1700000000000 "algebra notes.pdf".
Proof.
  split; [reflexivity|].
  exact (upload_link_stored (by_id "") "pdfs" "/srv/app/uploads/pdfs" 1700000000000
           "algebra notes.pdf" eq_refl).
Defined.

Lemma delete_unlink_failure_uncaught_witness :
  lookup read_only (by_id "1") covered_world = inr (Some covered_row)
  /\ is_Some (fs covered_world !! pdf_path covered_row)
  /\ unlink_err read_only (pdf_path covered_row) = true
  /\ delete_material read_only (by_id "1") covered_world = uncaught covered_world.
Proof.
  assert (is_Some (fs covered_world !! pdf_path covered_row)) as Hthere by (by eexists).
  split; [reflexivity|]. split; [exact Hthere|]. split; [reflexivity|].
  exact (delete_unlink_failure_uncaught read_only (by_id "1") covered_world covered_row
           eq_refl Hthere eq_refl).
Defined.

Lemma update_unknown_id_keeps_uploaded_files_witness :
  parsed (revise "7" [second_edition 1700000500000]) algebra_world [second_edition_file]
    (upload (revise "7" [second_edition 1700000500000]) (fs algebra_world)).2
    "Algebra II" "Ch4-6" "Math"
  /\ (forall r, r ∈ rows (db algebra_world) -> selected (id_where "7" r) = false)
  /\ fails_with (put_material quiet (revise "7" [second_edition 1700000500000])
                  algebra_world) 404 "Material not found."
  /\ db (world (put_material quiet (revise "7" [second_edition 1700000500000])
                  algebra_world)) = db algebra_world
  /\ forall file, file ∈ [second_edition_file] ->
       exists p, p ∈ parts (revise "7" [second_edition 1700000500000])
         /\ file = stored_file p
         /\ fs (world (put_material quiet (revise "7" [second_edition 1700000500000])
                         algebra_world)) !! path file = Some (part_content p).
Proof.
  assert (parsed (revise "7" [second_edition 1700000500000]) algebra_world
            [second_edition_file]
            (upload (revise "7" [second_edition 1700000500000]) (fs algebra_world)).2
            "Algebra II" "Ch4-6" "Math") as Hparsed by (by repeat split).
  assert (forall r, r ∈ rows (db algebra_world) -> selected (id_where "7" r) = false)
    as Hnone.
  { intros r Hr. apply list_elem_of_singleton in Hr. by rewrite Hr. }
  split; [exact Hparsed|]. split; [exact Hnone|].
  exact (update_unknown_id_keeps_uploaded_files quiet
           (revise "7" [second_edition 1700000500000]) algebra_world _ _ _ _ _
           Hparsed Hnone).
Defined.
